(** * OpenFrontIO MCP agent ([src/mcp/run_agent.py]): model and properties

    The agent drives a Node.js MCP server over its standard streams with
    newline-framed JSON-RPC, asks a local LLM for tool calls and executes
    them, one turn after the other.  This file embeds [MCPClient],
    [GameAgent] and [main] as functions over an explicit world state and
    proves what the design document says about them.

    Python values are the values [json.loads] produces; exceptions are an
    inductive type with the [Exception] / [BaseException] split that the
    [except Exception] clauses depend on; an f-string is kept as its
    literal parts and the values it interpolates. *)

From Stdlib Require Import ZArith String Ascii List Bool Lia Floats Sorted.
Import ListNotations.

Set Warnings "-register-all,-inexact-float".

Local Open Scope string_scope.
Local Open Scope Z_scope.
Local Open Scope list_scope.

(* ================================================================== *)
(** ** Python values *)

(** What [json.loads] can return: [None], [bool], [int], [float], [str],
    [list] and [dict].  A [dict] is its items in insertion order; keys are
    strings and a key occurs once. *)
Inductive json : Type :=
| JNull
| JBool (b : bool)
| JInt (n : Z)
| JFloat (f : float)
| JStr (s : string)
| JArr (items : list json)
| JObj (members : list (string * json)).

(** An f-string: literal text and interpolated values ([str()] of a value
    is the interpreter's business). *)
Inductive fpart : Type :=
| Lit (s : string)
| Fmt (v : json).

Definition fstring := list fpart.

(** The exceptions the program can meet.  All derive from [Exception]
    except [KeyboardInterrupt], which derives from [BaseException] only. *)
Inductive exn : Type :=
| RuntimeError (msg : fstring)
| TimeoutError (msg : string)
| JSONDecodeError
| UnicodeDecodeError
| TypeError
| AttributeError
| IndexError
| KeyError (key : json)
| BrokenPipeError
| APIError (msg : string)
| KeyboardInterrupt.

(** [isinstance(e, Exception)]. *)
Definition is_Exception (e : exn) : bool :=
  match e with
  | KeyboardInterrupt => false
  | _ => true
  end.

Inductive outcome (A : Type) : Type :=
| Return (a : A)
| Raise (e : exn).
Arguments Return {A} a.
Arguments Raise {A} e.

(** [bool(v)]. *)
Definition truthy (v : json) : bool :=
  match v with
  | JNull => false
  | JBool b => b
  | JInt n => negb (n =? 0)
  | JFloat f => negb (PrimFloat.eqb f 0%float)
  | JStr s => negb (String.eqb s "")
  | JArr items => match items with [] => false | _ => true end
  | JObj members => match members with [] => false | _ => true end
  end.

(** [sub in s] for two strings. *)
Fixpoint contains (sub s : string) : bool :=
  String.prefix sub s ||
  match s with
  | EmptyString => false
  | String _ s' => contains sub s'
  end.

Fixpoint dict_get (k : string) (members : list (string * json)) : option json :=
  match members with
  | [] => None
  | (k', v) :: rest => if String.eqb k k' then Some v else dict_get k rest
  end.

(** [d[k] = v] on a dict: replaces the value in place or appends. *)
Fixpoint dict_set (k : string) (v : json) (members : list (string * json))
  : list (string * json) :=
  match members with
  | [] => [(k, v)]
  | (k', v') :: rest =>
      if String.eqb k k' then (k, v) :: rest else (k', v') :: dict_set k v rest
  end.

(** The exact value of a float against an integer, for [int == float]. *)
Definition float_eq_Z (f : float) (z : Z) : bool :=
  match Prim2SF f with
  | S754_zero _ => z =? 0
  | S754_finite s m e =>
      let v := if s then Z.neg m else Z.pos m in
      if 0 <=? e then z =? v * 2 ^ e else z * 2 ^ (- e) =? v
  | _ => false
  end.

Definition as_int (v : json) : option Z :=
  match v with
  | JBool b => Some (if b then 1 else 0)
  | JInt n => Some n
  | _ => None
  end.

(** [a == b] on decoded values: numbers by value ([True == 1],
    [1 == 1.0]), lists item by item, dicts key by key. *)
Fixpoint py_eq (a b : json) {struct a} : bool :=
  match a with
  | JNull => match b with JNull => true | _ => false end
  | JBool _ | JInt _ =>
      match as_int a, b with
      | Some x, JFloat g => float_eq_Z g x
      | Some x, _ => match as_int b with Some y => x =? y | None => false end
      | None, _ => false
      end
  | JFloat f =>
      match b with
      | JFloat g => PrimFloat.eqb f g
      | _ => match as_int b with Some y => float_eq_Z f y | None => false end
      end
  | JStr s => match b with JStr t => String.eqb s t | _ => false end
  | JArr l =>
      match b with
      | JArr m =>
          (fix items_eq (l m : list json) : bool :=
             match l, m with
             | [], [] => true
             | x :: l', y :: m' => py_eq x y && items_eq l' m'
             | _, _ => false
             end) l m
      | _ => false
      end
  | JObj l =>
      match b with
      | JObj m =>
          Nat.eqb (length l) (length m) &&
          (fix members_eq (l : list (string * json)) : bool :=
             match l with
             | [] => true
             | (k, v) :: l' =>
                 match dict_get k m with
                 | Some w => py_eq v w
                 | None => false
                 end && members_eq l'
             end) l
      | _ => false
      end
  end.

(** [obj.get(key, default)]: only a dict has [get]. *)
Definition py_get (obj : json) (key : string) (default : json) : outcome json :=
  match obj with
  | JObj members =>
      Return (match dict_get key members with Some v => v | None => default end)
  | _ => Raise AttributeError
  end.

(** [obj[key]] with a string key. *)
Definition py_item (obj : json) (key : string) : outcome json :=
  match obj with
  | JObj members =>
      match dict_get key members with
      | Some v => Return v
      | None => Raise (KeyError (JStr key))
      end
  | _ => Raise TypeError
  end.

(** The bytes of the first character of a UTF-8 string. *)
Definition is_continuation (c : ascii) : bool :=
  let n := N_of_ascii c in (128 <=? n)%N && (n <=? 191)%N.

Fixpoint take_continuation (s : string) : string :=
  match s with
  | String c s' => if is_continuation c then String c (take_continuation s') else ""
  | EmptyString => ""
  end.

Fixpoint drop_continuation (s : string) : string :=
  match s with
  | String c s' => if is_continuation c then drop_continuation s' else s
  | EmptyString => ""
  end.

Definition first_char (s : string) : string :=
  match s with
  | String c s' => String c (take_continuation s')
  | EmptyString => ""
  end.

(** The characters of a string, each as a string of its own. *)
Fixpoint chars_fuel (fuel : nat) (s : string) : list string :=
  match fuel, s with
  | S fuel', String c s' =>
      String c (take_continuation s') :: chars_fuel fuel' (drop_continuation s')
  | _, _ => []
  end.

Definition chars (s : string) : list string := chars_fuel (String.length s) s.

(** [obj[0]]. *)
Definition py_first (obj : json) : outcome json :=
  match obj with
  | JArr (x :: _) => Return x
  | JArr [] => Raise IndexError
  | JStr EmptyString => Raise IndexError
  | JStr s => Return (JStr (first_char s))
  | JObj _ => Raise (KeyError (JInt 0))
  | _ => Raise TypeError
  end.

(** [key in obj] with a string key: dict membership, list membership by
    [==], substring of a string; anything else is not iterable. *)
Definition py_in (key : string) (obj : json) : outcome bool :=
  match obj with
  | JObj members =>
      Return (match dict_get key members with Some _ => true | None => false end)
  | JArr items => Return (existsb (py_eq (JStr key)) items)
  | JStr s => Return (contains key s)
  | _ => Raise TypeError
  end.

(** [for x in obj]: the items of a list, the keys of a dict, the
    characters of a string. *)
Definition py_iter (obj : json) : outcome (list json) :=
  match obj with
  | JArr items => Return items
  | JObj members => Return (map (fun kv => JStr (fst kv)) members)
  | JStr s => Return (map JStr (chars s))
  | _ => Raise TypeError
  end.

(** [len(obj)]. *)
Definition py_len (obj : json) : outcome Z :=
  match obj with
  | JArr items => Return (Z.of_nat (length items))
  | JObj members => Return (Z.of_nat (length members))
  | JStr s => Return (Z.of_nat (length (chars s)))
  | _ => Raise TypeError
  end.

(* ================================================================== *)
(** ** Bytes: [decode('utf-8')] and [strip()] *)

Definition byte_in (lo hi : N) (c : ascii) : bool :=
  let n := N_of_ascii c in (lo <=? n)%N && (n <=? hi)%N.

(** Well-formed UTF-8 (no overlong forms, no surrogates, at most
    U+10FFFF), which is what the strict decoder accepts. *)
Fixpoint utf8_valid (s : string) : bool :=
  match s with
  | EmptyString => true
  | String c0 s1 =>
      if byte_in 0 127 c0 then utf8_valid s1 else
      match s1 with
      | EmptyString => false
      | String c1 s2 =>
          if byte_in 194 223 c0 then byte_in 128 191 c1 && utf8_valid s2 else
          match s2 with
          | EmptyString => false
          | String c2 s3 =>
              if byte_in 224 239 c0 then
                (if byte_in 224 224 c0 then byte_in 160 191 c1
                 else if byte_in 237 237 c0 then byte_in 128 159 c1
                 else byte_in 128 191 c1)
                && byte_in 128 191 c2 && utf8_valid s3
              else
              match s3 with
              | EmptyString => false
              | String c3 s4 =>
                  byte_in 240 244 c0 &&
                  (if byte_in 240 240 c0 then byte_in 144 191 c1
                   else if byte_in 244 244 c0 then byte_in 128 143 c1
                   else byte_in 128 191 c1)
                  && byte_in 128 191 c2 && byte_in 128 191 c3 && utf8_valid s4
              end
          end
      end
  end.

(** [bytes.decode('utf-8')]: the text keeps its UTF-8 bytes. *)
Definition decode_utf8 (line : string) : outcome string :=
  if utf8_valid line then Return line else Raise UnicodeDecodeError.

(** The characters [str.isspace] accepts, by their UTF-8 bytes. *)
Definition space1 (c : ascii) : bool :=
  byte_in 9 13 c || byte_in 28 32 c.

Definition space2 (c0 c1 : ascii) : bool :=
  byte_in 194 194 c0 && (byte_in 133 133 c1 || byte_in 160 160 c1).

Definition space3 (c0 c1 c2 : ascii) : bool :=
  (byte_in 225 225 c0 && byte_in 154 154 c1 && byte_in 128 128 c2) ||
  (byte_in 226 226 c0 && byte_in 128 128 c1 &&
     (byte_in 128 138 c2 || byte_in 168 169 c2 || byte_in 175 175 c2)) ||
  (byte_in 226 226 c0 && byte_in 129 129 c1 && byte_in 159 159 c2) ||
  (byte_in 227 227 c0 && byte_in 128 128 c1 && byte_in 128 128 c2).

(** Drops leading white space; with [backwards] the string is read from
    its end, so the bytes of a character arrive last first. *)
Fixpoint drop_space (backwards : bool) (s : string) : string :=
  match s with
  | EmptyString => ""
  | String c0 s1 =>
      if space1 c0 then drop_space backwards s1 else
      match s1 with
      | EmptyString => s
      | String c1 s2 =>
          if (if backwards then space2 c1 c0 else space2 c0 c1)
          then drop_space backwards s2 else
          match s2 with
          | EmptyString => s
          | String c2 s3 =>
              if (if backwards then space3 c2 c1 c0 else space3 c0 c1 c2)
              then drop_space backwards s3 else s
          end
      end
  end.

Fixpoint rev_string (acc s : string) : string :=
  match s with
  | EmptyString => acc
  | String c s' => rev_string (String c acc) s'
  end.

(** [str.strip()]. *)
Definition strip (s : string) : string :=
  rev_string "" (drop_space true (rev_string "" (drop_space false s))).

(* ================================================================== *)
(** ** The world: the server process, the console, the two objects *)

(** What the main thread prints or does to the outside, in order. *)
Inductive event : Type :=
| Say (text : fstring)                  (* print(...) *)
| SayError (label : string) (e : exn)   (* print(f"<label>{e}") *)
| Traceback (e : exn)                   (* traceback.print_exc() *)
| Sleep (seconds : Z)                   (* time.sleep(...) *)
| Terminate                             (* mcp_process.terminate() *)
| Wait (timeout : Z)                    (* mcp_process.wait(timeout=...) *)
| Kill.                                 (* mcp_process.kill() *)

Inductive proc_status : Type := Alive | Exited | Killed.

Record world : Type := mkWorld {
  (* the server process and its pipes *)
  stdin_broken : bool;             (* a write to its stdin fails *)
  stdin_written : list json;       (* the request dicts written, oldest first *)
  stdout_lines : list string;      (* the lines readline() will return; none
                                      left is end of input *)
  exits_on_terminate : bool;       (* it exits within the grace period *)
  proc : proc_status;
  (* MCPClient *)
  request_id : Z;
  stderr_queue : list string;      (* lines the reader thread delivers before
                                      the connection deadline *)
  (* GameAgent *)
  tools : json;
  map_summary : json;
  turn_count : Z;
  (* the operator and the console *)
  sigint_at : option Z;            (* Ctrl+C arrives in the pause after this turn *)
  console : list event
}.

Definition set_stdin_written (x : list json) (w : world) : world :=
  mkWorld (stdin_broken w) x (stdout_lines w) (exits_on_terminate w) (proc w)
          (request_id w) (stderr_queue w) (tools w) (map_summary w)
          (turn_count w) (sigint_at w) (console w).

Definition set_stdout_lines (x : list string) (w : world) : world :=
  mkWorld (stdin_broken w) (stdin_written w) x (exits_on_terminate w) (proc w)
          (request_id w) (stderr_queue w) (tools w) (map_summary w)
          (turn_count w) (sigint_at w) (console w).

Definition set_proc (x : proc_status) (w : world) : world :=
  mkWorld (stdin_broken w) (stdin_written w) (stdout_lines w)
          (exits_on_terminate w) x
          (request_id w) (stderr_queue w) (tools w) (map_summary w)
          (turn_count w) (sigint_at w) (console w).

Definition set_request_id (x : Z) (w : world) : world :=
  mkWorld (stdin_broken w) (stdin_written w) (stdout_lines w)
          (exits_on_terminate w) (proc w)
          x (stderr_queue w) (tools w) (map_summary w)
          (turn_count w) (sigint_at w) (console w).

Definition set_stderr_queue (x : list string) (w : world) : world :=
  mkWorld (stdin_broken w) (stdin_written w) (stdout_lines w)
          (exits_on_terminate w) (proc w)
          (request_id w) x (tools w) (map_summary w)
          (turn_count w) (sigint_at w) (console w).

Definition set_tools (x : json) (w : world) : world :=
  mkWorld (stdin_broken w) (stdin_written w) (stdout_lines w)
          (exits_on_terminate w) (proc w)
          (request_id w) (stderr_queue w) x (map_summary w)
          (turn_count w) (sigint_at w) (console w).

Definition set_map_summary (x : json) (w : world) : world :=
  mkWorld (stdin_broken w) (stdin_written w) (stdout_lines w)
          (exits_on_terminate w) (proc w)
          (request_id w) (stderr_queue w) (tools w) x
          (turn_count w) (sigint_at w) (console w).

Definition set_turn_count (x : Z) (w : world) : world :=
  mkWorld (stdin_broken w) (stdin_written w) (stdout_lines w)
          (exits_on_terminate w) (proc w)
          (request_id w) (stderr_queue w) (tools w) (map_summary w)
          x (sigint_at w) (console w).

Definition set_console (x : list event) (w : world) : world :=
  mkWorld (stdin_broken w) (stdin_written w) (stdout_lines w)
          (exits_on_terminate w) (proc w)
          (request_id w) (stderr_queue w) (tools w) (map_summary w)
          (turn_count w) (sigint_at w) x.

(* ================================================================== *)
(** ** Computations that change the world and may raise *)

Definition M (A : Type) : Type := world -> outcome A * world.

Definition ret {A} (a : A) : M A := fun w => (Return a, w).

Definition raise {A} (e : exn) : M A := fun w => (Raise e, w).

Definition bind {A B} (c : M A) (k : A -> M B) : M B :=
  fun w =>
    match c w with
    | (Return a, w') => k a w'
    | (Raise e, w') => (Raise e, w')
    end.

Notation "x <- c ;; k" := (bind c (fun x => k))
  (at level 61, c at next level, right associativity).
Notation "c ;; k" := (bind c (fun _ => k))
  (at level 61, right associativity).

Definition lift {A} (r : outcome A) : M A := fun w => (r, w).

Definition gets {A} (f : world -> A) : M A := fun w => (Return (f w), w).

Definition modify (f : world -> world) : M unit := fun w => (Return tt, f w).

(** Sequencing of computations that only may raise. *)
Definition and_then {A B} (r : outcome A) (k : A -> outcome B) : outcome B :=
  match r with
  | Return a => k a
  | Raise e => Raise e
  end.

Notation "'let?' x ':=' r 'in' k" := (and_then r (fun x => k))
  (at level 10, x name, r at level 100, k at level 200).

(** [try: body  except Exception as e: handler(e)]. *)
Definition try_except {A} (body : M A) (handler : exn -> M A) : M A :=
  fun w =>
    match body w with
    | (Raise e, w') => if is_Exception e then handler e w' else (Raise e, w')
    | r => r
    end.

(** The world with one more event on the console. *)
Definition logged (ev : event) (w : world) : world :=
  set_console (console w ++ [ev]) w.

Definition emit (ev : event) : M unit := modify (logged ev).

Definition say (text : fstring) : M unit := emit (Say text).

(** [for x in xs: body(x)]. *)
Fixpoint for_each {A} (xs : list A) (body : A -> M unit) : M unit :=
  match xs with
  | [] => ret tt
  | x :: rest => body x ;; for_each rest body
  end.

(* ================================================================== *)
(** ** The collaborators outside the repository *)

Record tool_call : Type := mkToolCall {
  function_name : string;
  function_arguments : string      (* a JSON text *)
}.

Record message : Type := mkMessage {
  content : json;                  (* a str or None *)
  tool_calls : option (list tool_call)
}.

Record chat_completion : Type := mkCompletion {
  choices : list message
}.

Record chat_request : Type := mkChatRequest {
  model : string;
  messages : list (string * fstring);
  request_tools : option (list json);
  tool_choice : option string;
  temperature : float
}.

(** [json.loads] on a text ([None] for [JSONDecodeError]) and the LLM
    endpoint, asked once in each turn (the turn number comes first). *)
Class Externals : Type := {
  json_loads : string -> option json;
  llm_create : Z -> chat_request -> outcome chat_completion
}.

(** [json.loads(v)]: anything but a string is a [TypeError]. *)
Definition loads `{Externals} (v : json) : outcome json :=
  match v with
  | JStr s =>
      match json_loads s with
      | Some j => Return j
      | None => Raise JSONDecodeError
      end
  | _ => Raise TypeError
  end.

(* ================================================================== *)
(** ** Configuration *)

Definition LLM_BASE_URL : string := "http://localhost:11434/v1".
Definition MODEL_NAME : string := "qwen3:4b".
Definition TURN_INTERVAL_SECONDS : Z := 5.

(* ================================================================== *)
(** ** MCPClient *)

(** The substrings that mark a server log line as noise. *)
Definition noise_substrings : list string :=
  [ "Received game update";
    "Broadcasting game update";
    "Game state updated";
    "Tick:";
    "packedTileUpdates" ].

(** [any(noise in decoded for noise in [...])]. *)
Definition is_noise (decoded : string) : bool :=
  existsb (fun noise => contains noise decoded) noise_substrings.

(** The reader thread's own state: what it queued and what it printed. *)
Record stderr_reader : Type := mkReader {
  queued : list string;
  printed : list string
}.

(** The body of the loop of [_read_stderr] after decoding. *)
Definition read_stderr_line (decoded : string) (r : stderr_reader) : stderr_reader :=
  let r := mkReader (queued r ++ [decoded]) (printed r) in
  if is_noise decoded then r
  else mkReader (queued r) (printed r ++ [String.append "[MCP Server] " decoded]).

(** [_read_stderr]: an undecodable line ends the thread. *)
Fixpoint _read_stderr (lines : list string) (r : stderr_reader) : stderr_reader :=
  match lines with
  | [] => r
  | line :: rest =>
      match decode_utf8 line with
      | Raise _ => r
      | Return text => _read_stderr rest (read_stderr_line (strip text) r)
      end
  end.

(** [wait_for_connection]: takes lines from the queue until one holds the
    sentinel; the queue running dry is the timeout. *)
Fixpoint wait_for_queue (queue : list string) : outcome bool * list string :=
  match queue with
  | [] => (Raise (TimeoutError "Game failed to connect to MCP server within timeout"), [])
  | line :: rest =>
      if contains "Game connected successfully" line then (Return true, rest)
      else wait_for_queue rest
  end.

Definition wait_for_connection : M bool :=
  say [Lit "Waiting for game to connect to MCP server..."] ;;
  queue <- gets stderr_queue ;;
  modify (set_stderr_queue (snd (wait_for_queue queue))) ;;
  connected <- lift (fst (wait_for_queue queue)) ;;
  say [Lit "Game connected to MCP server!"] ;;
  ret connected.

(** [self.process.stdin.write(...)] and [flush()]. *)
Definition stdin_write (request : json) : M unit :=
  fun w =>
    if stdin_broken w then (Raise BrokenPipeError, w)
    else (Return tt, set_stdin_written (stdin_written w ++ [request]) w).

(** [self.process.stdout.readline()]: empty at end of input. *)
Definition stdout_readline : M string :=
  fun w =>
    match stdout_lines w with
    | [] => (Return "", w)
    | line :: rest => (Return line, set_stdout_lines rest w)
    end.

(** [params or {}]. *)
Definition or_empty (params : option json) : json :=
  match params with
  | Some p => if truthy p then p else JObj []
  | None => JObj []
  end.

Definition make_request (id : Z) (method : string) (params : option json) : json :=
  JObj [ ("jsonrpc", JStr "2.0");
         ("id", JInt id);
         ("method", JStr method);
         ("params", or_empty params) ].

(** What [send_request] does with the decoded response. *)
Definition read_response (response : json) : outcome json :=
  let? has_error := py_in "error" response in
  if has_error : bool then
    let? err := py_item response "error" in
    Raise (RuntimeError [Lit "MCP error: "; Fmt err])
  else py_get response "result" JNull.

Definition send_request `{Externals} (method : string) (params : option json) : M json :=
  modify (fun w => set_request_id (request_id w + 1) w) ;;
  id <- gets request_id ;;
  stdin_write (make_request id method params) ;;
  response_line <- stdout_readline ;;
  if String.eqb response_line "" then
    raise (RuntimeError [Lit "MCP server closed stdout"])
  else
    text <- lift (decode_utf8 response_line) ;;
    response <- lift (loads (JStr text)) ;;
    lift (read_response response).

Definition list_resources `{Externals} : M json :=
  result <- send_request "resources/list" None ;;
  lift (py_get result "resources" (JArr [])).

Definition read_resource `{Externals} (uri : string) : M json :=
  result <- send_request "resources/read" (Some (JObj [("uri", JStr uri)])) ;;
  contents <- lift (py_get result "contents" (JArr [])) ;;
  if truthy contents then
    first <- lift (py_first contents) ;;
    lift (py_get first "text" (JStr ""))
  else ret (JStr "").

Definition list_tools `{Externals} : M json :=
  result <- send_request "tools/list" None ;;
  lift (py_get result "tools" (JArr [])).

Definition call_tool `{Externals} (name : string) (arguments : json) : M json :=
  result <- send_request "tools/call"
              (Some (JObj [("name", JStr name); ("arguments", arguments)])) ;;
  contents <- lift (py_get result "content" (JArr [])) ;;
  if truthy contents then
    first <- lift (py_first contents) ;;
    text <- lift (py_get first "text" (JStr "")) ;;
    match loads text with
    | Raise JSONDecodeError => ret text
    | r => lift r
    end
  else ret JNull.

(* ================================================================== *)
(** ** GameAgent *)

(** The loop of [initialize] that prints one line for each tool. *)
Definition announce_tool (tool : json) : M unit :=
  name <- lift (py_item tool "name") ;;
  description <- lift (py_get tool "description" (JStr "No description")) ;;
  say [Lit "   - "; Fmt name; Lit ": "; Fmt description].

(** The first half of [initialize]: the tools, fetched and listed. *)
Definition load_tools `{Externals} : M unit :=
  say [Lit "Initializing agent..."] ;;
  fetched <- list_tools ;;
  modify (set_tools fetched) ;;
  count <- lift (py_len fetched) ;;
  say [Lit "Dynamically loaded "; Fmt (JInt count); Lit " tools from MCP server:"] ;;
  items <- lift (py_iter fetched) ;;
  for_each items announce_tool.

(** The second half: the map summary, inside its [try]. *)
Definition load_map_summary `{Externals} : M unit :=
  try_except
    (summary <- read_resource "game://map/summary" ;;
     modify (set_map_summary summary) ;;
     say [Lit "Map summary loaded"])
    (fun e => emit (SayError "Could not load map summary: " e)).

Definition initialize `{Externals} : M unit :=
  load_tools ;; load_map_summary.

Definition get_game_state `{Externals} : M json :=
  state_json <- read_resource "game://state" ;;
  lift (loads state_json).

(** The first loop of [construct_prompt]: the first player whose id is
    [player_id], or [None]. *)
Fixpoint find_player (player_id : json) (players : list json) : outcome json :=
  match players with
  | [] => Return JNull
  | player :: rest =>
      let? id := py_get player "id" JNull in
      if py_eq id player_id then Return player else find_player player_id rest
  end.

Definition newline : string := String (ascii_of_nat 10) EmptyString.

(** One line of the list of all players. *)
Definition player_line (player_id p : json) : outcome fstring :=
  let? id := py_get p "id" JNull in
  let you := if py_eq id player_id then " (YOU)" else "" in
  let? id' := py_get p "id" JNull in
  let? land := py_get p "land" (JInt 0) in
  let? troops := py_get p "troops" (JInt 0) in
  let? alive := py_get p "isAlive" JNull in
  Return [ Lit "- Player "; Fmt id'; Lit you; Lit ": "; Fmt land; Lit " land, ";
           Fmt troops; Lit " troops, ";
           Lit (if truthy alive then "Alive" else "Dead"); Lit newline ].

Fixpoint player_lines (player_id : json) (players : list json) : outcome fstring :=
  match players with
  | [] => Return []
  | p :: rest =>
      let? line := player_line player_id p in
      let? more := player_lines player_id rest in
      Return (line ++ more)
  end.

Definition instructions : fstring :=
  [ Lit newline; Lit "**Instructions:**"; Lit newline;
    Lit "Your goal is to expand your territory and eliminate opponents. You have access to three tools:";
    Lit newline;
    Lit "1. `game.get_player_actions` - Get available actions for a specific tile (x, y)";
    Lit newline;
    Lit "2. `game.send_intent` - Send an action intent to the game (build, attack, etc.)";
    Lit newline;
    Lit "3. `game.set_attack_ratio` - Set your attack ratio (0.0 to 1.0, ratio of troops to send in attacks)";
    Lit newline; Lit newline;
    Lit "Think strategically and make decisions to grow your empire. Use the tools to explore the map and take actions.";
    Lit newline ].

Definition construct_prompt (game_state : json) : outcome fstring :=
  let? player_id := py_get game_state "playerID" (JInt 0) in
  let? tick := py_get game_state "tick" (JInt 0) in
  let? players := py_get game_state "players" (JArr []) in
  let? players := py_iter players in
  let? player_info := find_player player_id players in
  if negb (truthy player_info) then
    Return [Lit "You are playing OpenFrontIO. Could not find your player information."]
  else
    let? alive := py_get player_info "isAlive" (JBool false) in
    let? troops := py_get player_info "troops" (JInt 0) in
    let? gold := py_get player_info "gold" (JInt 0) in
    let? cities := py_get player_info "cities" (JInt 0) in
    let? land := py_get player_info "land" (JInt 0) in
    let header :=
      [ Lit "You are playing OpenFrontIO, a strategy game."; Lit newline; Lit newline;
        Lit "**Game Tick:** "; Fmt tick; Lit newline;
        Lit "**Your Player ID:** "; Fmt player_id; Lit newline; Lit newline;
        Lit "**Your Status:**"; Lit newline;
        Lit "- Alive: "; Fmt alive; Lit newline;
        Lit "- Troops: "; Fmt troops; Lit newline;
        Lit "- Gold: "; Fmt gold; Lit newline;
        Lit "- Cities: "; Fmt cities; Lit newline;
        Lit "- Land: "; Fmt land; Lit " tiles"; Lit newline; Lit newline;
        Lit "**All Players:**"; Lit newline ] in
    let? again := py_get game_state "players" (JArr []) in
    let? again := py_iter again in
    let? lines := player_lines player_id again in
    Return (header ++ lines ++ instructions).

(** The dict built for one tool in [convert_mcp_tools_to_openai_format]. *)
Definition convert_tool (tool : json) : outcome json :=
  let? name := py_item tool "name" in
  let? description := py_get tool "description" (JStr "") in
  let? parameters := py_get tool "inputSchema" (JObj []) in
  Return (JObj [ ("type", JStr "function");
                 ("function", JObj [ ("name", name);
                                     ("description", description);
                                     ("parameters", parameters) ]) ]).

Fixpoint convert_tools (fetched : list json) : outcome (list json) :=
  match fetched with
  | [] => Return []
  | tool :: rest =>
      let? openai_tool := convert_tool tool in
      let? more := convert_tools rest in
      Return (openai_tool :: more)
  end.

Definition convert_mcp_tools_to_openai_format : M (list json) :=
  fetched <- gets tools ;;
  items <- lift (py_iter fetched) ;;
  lift (convert_tools items).

(** The body of the loop over [message.tool_calls]. *)
Definition execute_tool_call `{Externals} (call : tool_call) : M unit :=
  arguments <- lift (loads (JStr (function_arguments call))) ;;
  say [Lit "AI calling tool: "; Fmt (JStr (function_name call))] ;;
  say [Lit "   Arguments: "; Fmt arguments] ;;
  result <- call_tool (function_name call) arguments ;;
  say [Lit "   Result: "; Fmt result].

Definition system_prompt : fstring :=
  [Lit "You are an AI agent playing OpenFrontIO. Use the available tools to explore and take actions."].

(** What stands inside the [try] of [execute_turn]. *)
Definition turn_body `{Externals} : M unit :=
  game_state <- get_game_state ;;
  prompt <- lift (construct_prompt game_state) ;;
  say [Lit "Thinking..."] ;;
  openai_tools <- convert_mcp_tools_to_openai_format ;;
  turn <- gets turn_count ;;
  let given := match openai_tools with [] => false | _ => true end in
  response <- lift (llm_create turn
                      (mkChatRequest MODEL_NAME
                         [("system", system_prompt); ("user", prompt)]
                         (if given then Some openai_tools else None)
                         (if given then Some "auto" else None)
                         0.7%float)) ;;
  match choices response with
  | [] => raise IndexError
  | message :: _ =>
      match tool_calls message with
      | Some (call :: calls) => for_each (call :: calls) execute_tool_call
      | _ => say [Lit "AI: "; Fmt (content message)]
      end
  end.

(** ['='*60]. *)
Definition bar : string := String.concat "" (repeat "=" 60).

Definition execute_turn `{Externals} : M unit :=
  modify (fun w => set_turn_count (turn_count w + 1) w) ;;
  turn <- gets turn_count ;;
  say [Lit newline; Lit bar] ;;
  say [Lit "Turn "; Fmt (JInt turn)] ;;
  say [Lit bar] ;;
  try_except turn_body
    (fun e => emit (SayError "Error during turn: " e) ;; emit (Traceback e)).

(* ================================================================== *)
(** ** main *)

(** [time.sleep]: the operator's Ctrl+C, when it comes, comes here. *)
Definition sleep (seconds : Z) : M unit :=
  emit (Sleep seconds) ;;
  turn <- gets turn_count ;;
  pressed <- gets sigint_at ;;
  match pressed with
  | Some n => if n =? turn then raise KeyboardInterrupt else ret tt
  | None => ret tt
  end.

(** [while True: agent.execute_turn(); time.sleep(...)], [fuel] times
    round. *)
Fixpoint turn_loop `{Externals} (fuel : nat) : M unit :=
  match fuel with
  | O => ret tt
  | S fuel' => execute_turn ;; sleep TURN_INTERVAL_SECONDS ;; turn_loop fuel'
  end.

(** The [try] of [main] up to [agent.initialize()]: the client, the wait
    for the game, the agent with its fresh fields. *)
Definition connect : M unit :=
  modify (set_request_id 0) ;;
  wait_for_connection ;;
  modify (fun w => set_tools (JArr []) (set_map_summary JNull (set_turn_count 0 w))).

(** What stands inside the [try] of [main]. *)
Definition session `{Externals} (fuel : nat) : M unit :=
  connect ;;
  initialize ;;
  say [Lit "Starting AI turn loop (every "; Fmt (JInt TURN_INTERVAL_SECONDS); Lit " seconds)"] ;;
  say [Lit "   Press Ctrl+C to stop"] ;;
  turn_loop fuel.

(** The [finally] of [main]. *)
Definition cleanup (w : world) : world :=
  let w := set_console (console w ++ [Say [Lit "Cleaning up..."]; Terminate; Wait 5]) w in
  let w :=
    if exits_on_terminate w then set_proc Exited w
    else set_proc Killed (set_console (console w ++ [Kill]) w) in
  set_console (console w ++ [Say [Lit "Goodbye!"]]) w.

(** How a run of [main] stands after [fuel] turns. *)
Inductive session_end : Type :=
| StillLooping                 (* the turn loop is still running *)
| Stopped                      (* KeyboardInterrupt, then cleanup *)
| Fatal (e : exn)              (* except Exception, then cleanup *)
| Uncaught (e : exn).          (* cleanup, and the exception goes on *)

(** The lines [main] prints before it starts the server. *)
Definition banner (w : world) : world :=
  set_console (console w ++
    [ Say [Lit "Starting OpenFrontIO MCP Agent"];
      Say [Lit "LLM Base URL: "; Fmt (JStr LLM_BASE_URL)];
      Say [Lit "Model: "; Fmt (JStr MODEL_NAME)];
      Say [];
      Say [Lit "Starting MCP server..."] ]) w.

(** The [except Exception] of [main]. *)
Definition report_fatal (e : exn) (w : world) : world :=
  set_console (console w ++ [SayError "Fatal error: " e; Traceback e]) w.

Definition main `{Externals} (fuel : nat) (w : world) : session_end * world :=
  match session fuel (banner w) with
  | (Return _, w') => (StillLooping, w')
  | (Raise KeyboardInterrupt, w') =>
      (Stopped, cleanup (set_console (console w' ++ [Say [Lit "Stopping agent..."]]) w'))
  | (Raise e, w') =>
      if is_Exception e then (Fatal e, cleanup (report_fatal e w'))
      else (Uncaught e, cleanup w')
  end.

(* ================================================================== *)
(** ** A JSON decoder for concrete lines

    The properties below hold for every [json_loads].  To run the model on
    the lines of the scenarios, this decoder reads the JSON texts that need
    no float and no [\u] escape (it refuses those); on the texts it accepts
    it gives the value [json.loads] gives. *)

Definition code (c : ascii) : N := N_of_ascii c.

Fixpoint skip_ws (s : string) : string :=
  match s with
  | String c s' =>
      if ((code c =? 32) || (code c =? 9) || (code c =? 10) || (code c =? 13))%N
      then skip_ws s' else s
  | EmptyString => s
  end.

Definition unescape (c : ascii) : option ascii :=
  let n := code c in
  if ((n =? 34) || (n =? 92) || (n =? 47))%N then Some c
  else if (n =? 98)%N then Some (ascii_of_N 8)
  else if (n =? 102)%N then Some (ascii_of_N 12)
  else if (n =? 110)%N then Some (ascii_of_N 10)
  else if (n =? 114)%N then Some (ascii_of_N 13)
  else if (n =? 116)%N then Some (ascii_of_N 9)
  else None.

(** After the opening quote; [acc] holds the text read, last byte first. *)
Fixpoint decode_string (s acc : string) : option (string * string) :=
  match s with
  | EmptyString => None
  | String c s' =>
      if (code c =? 34)%N then Some (rev_string "" acc, s')
      else if (code c =? 92)%N then
        match s' with
        | String e s'' =>
            match unescape e with
            | Some c' => decode_string s'' (String c' acc)
            | None => None
            end
        | EmptyString => None
        end
      else if (code c <? 32)%N then None
      else decode_string s' (String c acc)
  end.

Definition is_digit (c : ascii) : bool := byte_in 48 57 c.

Fixpoint decode_digits (s : string) (acc : Z) : Z * string :=
  match s with
  | String c s' =>
      if is_digit c then decode_digits s' (10 * acc + Z.of_N (code c - 48)) else (acc, s)
  | EmptyString => (acc, s)
  end.

(** An integer without sign; a text that goes on as a float is refused. *)
Definition decode_natural (s : string) : option (Z * string) :=
  match s with
  | String c s' =>
      if negb (is_digit c) then None else
      let (n, rest) := if (code c =? 48)%N then (0, s') else decode_digits s 0 in
      match rest with
      | String d _ =>
          if ((code d =? 46) || (code d =? 101) || (code d =? 69))%N then None
          else Some (n, rest)
      | EmptyString => Some (n, rest)
      end
  | EmptyString => None
  end.

Definition drop (n : nat) (s : string) : string :=
  String.substring n (String.length s - n) s.

Fixpoint decode_value (fuel : nat) (s : string) : option (json * string) :=
  match fuel with
  | O => None
  | S fuel' =>
      match skip_ws s with
      | EmptyString => None
      | String c r as t =>
          if (code c =? 123)%N then
            match skip_ws r with
            | String c' r' =>
                if (code c' =? 125)%N then Some (JObj [], r')
                else decode_members fuel' (String c' r') []
            | EmptyString => None
            end
          else if (code c =? 91)%N then
            match skip_ws r with
            | String c' r' =>
                if (code c' =? 93)%N then Some (JArr [], r')
                else decode_items fuel' (String c' r') []
            | EmptyString => None
            end
          else if (code c =? 34)%N then
            match decode_string r "" with
            | Some (text, r') => Some (JStr text, r')
            | None => None
            end
          else if (code c =? 45)%N then
            match decode_natural r with
            | Some (n, r') => Some (JInt (- n), r')
            | None => None
            end
          else if is_digit c then
            match decode_natural t with
            | Some (n, r') => Some (JInt n, r')
            | None => None
            end
          else if String.prefix "true" t then Some (JBool true, drop 4 t)
          else if String.prefix "false" t then Some (JBool false, drop 5 t)
          else if String.prefix "null" t then Some (JNull, drop 4 t)
          else None
      end
  end

with decode_items (fuel : nat) (s : string) (acc : list json) : option (json * string) :=
  match fuel with
  | O => None
  | S fuel' =>
      match decode_value fuel' s with
      | None => None
      | Some (v, r) =>
          match skip_ws r with
          | String c r' =>
              if (code c =? 44)%N then decode_items fuel' r' (v :: acc)
              else if (code c =? 93)%N then Some (JArr (rev (v :: acc)), r')
              else None
          | EmptyString => None
          end
      end
  end

with decode_members (fuel : nat) (s : string) (acc : list (string * json))
  : option (json * string) :=
  match fuel with
  | O => None
  | S fuel' =>
      match skip_ws s with
      | String q r =>
          if negb (code q =? 34)%N then None else
          match decode_string r "" with
          | None => None
          | Some (key, r1) =>
              match skip_ws r1 with
              | String c r2 =>
                  if negb (code c =? 58)%N then None else
                  match decode_value fuel' r2 with
                  | None => None
                  | Some (v, r3) =>
                      match skip_ws r3 with
                      | String d r4 =>
                          if (code d =? 44)%N then decode_members fuel' r4 (dict_set key v acc)
                          else if (code d =? 125)%N then Some (JObj (dict_set key v acc), r4)
                          else None
                      | EmptyString => None
                      end
                  end
              | EmptyString => None
              end
          end
      | EmptyString => None
      end
  end.

Definition json_decode (s : string) : option json :=
  match decode_value (2 * String.length s + 2) s with
  | Some (v, rest) =>
      match skip_ws rest with
      | EmptyString => Some v
      | _ => None
      end
  | None => None
  end.

(** Concrete lines are written with an apostrophe where the wire has a
    double quote. *)
Fixpoint wire (s : string) : string :=
  match s with
  | String c s' => String (if (code c =? 39)%N then ascii_of_N 34 else c) (wire s')
  | EmptyString => EmptyString
  end.

(* ================================================================== *)
(** ** Vocabulary of the statements *)

(** The server answers the next request with [line], which decodes to
    [response]; [rest] is what it writes afterwards. *)
Definition answers `{Externals} (w : world) (line : string) (rest : list string)
    (response : json) : Prop :=
  stdin_broken w = false /\
  stdout_lines w = line :: rest /\
  String.eqb line "" = false /\
  utf8_valid line = true /\
  json_loads line = Some response.

(** The world after [send_request] wrote its request and read one line. *)
Definition exchanged (method : string) (params : option json) (rest : list string)
    (w : world) : world :=
  set_stdout_lines rest
    (set_stdin_written
       (stdin_written w ++ [make_request (request_id w + 1) method params])
       (set_request_id (request_id w + 1) w)).

(** The world after [send_request] wrote its request, before it reads. *)
Definition requested (method : string) (params : option json) (w : world) : world :=
  set_stdin_written
    (stdin_written w ++ [make_request (request_id w + 1) method params])
    (set_request_id (request_id w + 1) w).

(** The world after one [print]. *)
Definition noted (text : fstring) (w : world) : world := logged (Say text) w.

(** The two exceptions [send_request] raises of its own. *)
Definition closed_stdout : exn := RuntimeError [Lit "MCP server closed stdout"].

Definition remote_error (err : json) : exn := RuntimeError [Lit "MCP error: "; Fmt err].

(** [response.get("result")] on the members of a response. *)
Definition result_of (members : list (string * json)) : json :=
  match dict_get "result" members with
  | Some result => result
  | None => JNull
  end.

(** [members.get(key, default)] on the members of a dict. *)
Definition field_or (key : string) (default : json) (members : list (string * json)) : json :=
  match dict_get key members with
  | Some v => v
  | None => default
  end.

(** [converted] is the OpenAI form of the fetched tool [tool]: its name,
    its description and its input schema as they were fetched (an empty
    text and an empty schema when the server sent none). *)
Definition adapts (tool converted : json) : Prop :=
  exists members name,
    tool = JObj members /\
    dict_get "name" members = Some name /\
    converted =
      JObj [ ("type", JStr "function");
             ("function",
              JObj [ ("name", name);
                     ("description", field_or "description" (JStr "") members);
                     ("parameters", field_or "inputSchema" (JObj []) members) ]) ].

(** The world after [time.sleep] returned. *)
Definition paused (w : world) : world := logged (Sleep TURN_INTERVAL_SECONDS) w.

(** The world at the [try] of [execute_turn]: the turn counted and its
    header printed. *)
Definition start_turn (w : world) : world :=
  noted [Lit bar]
    (noted [Lit "Turn "; Fmt (JInt (turn_count w + 1))]
       (noted [Lit newline; Lit bar] (set_turn_count (turn_count w + 1) w))).

(** The [except Exception] of [execute_turn]. *)
Definition report_turn_error (e : exn) (w : world) : world :=
  logged (Traceback e) (logged (SayError "Error during turn: " e) w).


(** The request [call_tool] sends for one tool call of the LLM. *)
Definition tool_request (id : Z) (name : string) (arguments : json) : json :=
  make_request id "tools/call"
    (Some (JObj [("name", JStr name); ("arguments", arguments)])).

(** A request on the wire is the request of a tool call of the LLM. *)
Definition requests `{Externals} (call : tool_call) (request : json) : Prop :=
  exists id arguments,
    loads (JStr (function_arguments call)) = Return arguments /\
    request = tool_request id (function_name call) arguments.

(** The name of the tool a [tools/call] request asks for. *)
Definition requested_tool (request : json) : option string :=
  match request with
  | JObj members =>
      match dict_get "method" members, dict_get "params" members with
      | Some (JStr "tools/call"), Some (JObj params) =>
          match dict_get "name" params with
          | Some (JStr name) => Some name
          | _ => None
          end
      | _, _ => None
      end
  | _ => None
  end.

(** The lines the console shows for caught turn errors. *)
Definition turn_errors (w : world) : list exn :=
  flat_map (fun ev => match ev with
                      | SayError "Error during turn: " e => [e]
                      | _ => []
                      end) (console w).

Definition lower (c : ascii) : ascii :=
  if byte_in 65 90 c then ascii_of_N (code c + 32) else c.

Fixpoint lowercase (s : string) : string :=
  match s with
  | String c s' => String (lower c) (lowercase s')
  | EmptyString => EmptyString
  end.

(** The design document's noise test: a configured substring in any
    casing, anywhere in the line. *)
Definition noise_in_any_casing (line : string) : bool :=
  existsb (fun noise => contains (lowercase noise) (lowercase line)) noise_substrings.

(* ================================================================== *)
(** ** Concrete runs *)

(** A fresh process whose stdout will carry [lines] and whose log lines
    [queue] arrive before the connection deadline. *)
Definition fresh (lines queue : list string) : world :=
  mkWorld false [] lines true Alive 0 queue (JArr []) JNull 0 None [].

(** An LLM that answers with text only. *)
Definition talking_llm (turn : Z) (request : chat_request) : outcome chat_completion :=
  Return (mkCompletion [mkMessage (JStr "I will wait.") None]).

(** An LLM that asks for two tools in each turn. *)
Definition two_calls : list tool_call :=
  [ mkToolCall "game.get_player_actions" (wire "{'x':1,'y':2}");
    mkToolCall "game.set_attack_ratio" (wire "{'ratio':1}") ].

Definition eager_llm (turn : Z) (request : chat_request) : outcome chat_completion :=
  Return (mkCompletion [mkMessage JNull (Some two_calls)]).


Definition with_llm (llm : Z -> chat_request -> outcome chat_completion) : Externals :=
  {| json_loads := json_decode; llm_create := llm |}.

(** Lines of a server, as in the scenarios of the design document. *)
Definition tools_line : string :=
  wire "{'jsonrpc':'2.0','id':1,'result':{'tools':[{'name':'game.send_intent','description':'d','inputSchema':{}}]}}".

Definition summary_line : string :=
  wire "{'jsonrpc':'2.0','id':2,'result':{'contents':[{'uri':'game://map/summary','text':'small map'}]}}".

Definition state_line : string :=
  wire "{'jsonrpc':'2.0','id':3,'result':{'contents':[{'uri':'game://state','text':'{\'playerID\':1,\'tick\':5,\'players\':[{\'id\':1,\'troops\':10}]}'}]}}".

Definition error_line : string :=
  wire "{'jsonrpc':'2.0','id':1,'error':{'code':-1,'message':'bad'}}".

Definition other_id_line : string :=
  wire "{'jsonrpc':'2.0','id':7,'result':{'ok':true}}".


Definition plain_line : string :=
  wire "{'jsonrpc':'2.0','id':1,'result':{'content':[{'type':'text','text':'Intent sent'}]}}".

Definition no_content_line : string :=
  wire "{'jsonrpc':'2.0','id':1,'result':{'content':[]}}".

Definition no_contents_line : string :=
  wire "{'jsonrpc':'2.0','id':1,'result':{}}".

(** The tool of scenario A as [json.loads] gives it. *)
Definition scenario_tool : json :=
  JObj [("name", JStr "game.send_intent"); ("description", JStr "d"); ("inputSchema", JObj [])].

Definition sentinel_queue : list string :=
  ["MCP server listening"; "Game connected successfully"].

(* ================================================================== *)
(** ** Predicates on computations *)


(** A computation that raises nothing but [Exception]s. *)
Definition safe {A} (c : M A) : Prop :=
  forall w e w', c w = (Raise e, w') -> is_Exception e = true.




(* ================================================================== *)
(** ** Further vocabulary *)

(** The id a request carries. *)
Definition id_of (request : json) : Z :=
  match request with
  | JObj members =>
      match dict_get "id" members with
      | Some (JInt n) => n
      | _ => 0
      end
  | _ => 0
  end.

(** The requests written so far carry ids in strictly increasing order,
    none beyond the client's counter. *)
Definition ids_fresh (w : world) : Prop :=
  StronglySorted Z.lt (map id_of (stdin_written w)) /\
  Forall (fun request => id_of request <= request_id w) (stdin_written w).

(** A computation that keeps a property of the world, however it ends. *)
Definition preserves (P : world -> Prop) {A} (c : M A) : Prop :=
  forall w, P w -> P (snd (c w)).

Definition is_dict (v : json) : bool :=
  match v with
  | JObj _ => true
  | _ => false
  end.

(** The two lines [wait_for_connection] prints. *)
Definition waiting_text : fstring := [Lit "Waiting for game to connect to MCP server..."].

Definition connected_text : fstring := [Lit "Game connected to MCP server!"].

Definition no_sentinel (line : string) : Prop :=
  contains "Game connected successfully" line = false.

Definition handshake_timeout : exn :=
  TimeoutError "Game failed to connect to MCP server within timeout".

(** More lines of a server. *)
Definition bare_line : string := wire "{'jsonrpc':'2.0','id':1}".

Definition list_line : string := wire "['error']".

Definition number_text_line : string :=
  wire "{'jsonrpc':'2.0','id':1,'result':{'content':[{'type':'text','text':5}]}}".

(** A computation that does the same whatever the agent's map summary
    is, and leaves the summary as it was. *)
Definition ignores_summary {A} (c : M A) : Prop :=
  forall w x,
    c (set_map_summary x w) = (fst (c w), set_map_summary x (snd (c w))).







(** The text the reader thread prints for a line. *)
Definition server_says (decoded : string) : string :=
  String.append "[MCP Server] " decoded.

(** The request with which a turn reads the game state. *)
Definition state_request (id : Z) : json :=
  make_request id "resources/read" (Some (JObj [("uri", JStr "game://state")])).

(** A request on the wire that calls a tool. *)
Definition is_tool_call (request : json) : Prop :=
  exists name, requested_tool request = Some name.

(** Since [sent_before] the world has seen tool calls only. *)
Definition tool_calls_since (sent_before : list json) (w : world) : Prop :=
  exists calls, stdin_written w = sent_before ++ calls /\ Forall is_tool_call calls.

(* ================================================================== *)
(** ** verify_pipeline.py: stream_reader *)

(** [line_str[:100]]. *)
Definition first_100 (s : string) : string :=
  String.concat "" (firstn 100 (chars s)).

Definition rule : string := String.concat "" (repeat "-" 63).

(** The four lines [stream_reader] prints before it reads. *)
Definition pipeline_header : list fstring :=
  [ [Lit rule];
    [Lit "MCP Verification Client Started"];
    [Lit "Waiting for Game Connection on ws://localhost:8765 ..."];
    [Lit rule] ].

(** The [try] of [stream_reader] with its [except json.JSONDecodeError]:
    the line to print for [line_str]. *)
Definition report_message `{Externals} (line_str : string) : outcome fstring :=
  match loads (JStr line_str) with
  | Raise JSONDecodeError => Return [Lit "[LOG] "; Fmt (JStr line_str)]
  | Raise e => Raise e
  | Return message =>
      let? kind := py_get message "type" JNull in
      if py_eq kind (JStr "GameUpdate") then
        let? payload := py_get message "payload" (JObj []) in
        let? tick := py_get payload "tick" JNull in
        Return [Lit "SUCCESS: Received Game Update! Tick: "; Fmt tick]
      else
        let? kind' := py_get message "type" JNull in
        if py_eq kind' (JStr "session_info") then
          let? payload := py_get message "payload" JNull in
          Return [Lit "Session Info: "; Fmt payload]
        else
          Return [Lit "Message: "; Fmt (JStr (first_100 line_str)); Lit "..."]
  end.

(** The [while] loop of [stream_reader] over the lines [readline] will
    return: [checks] is how often [shutdown_event.is_set()] is still
    false ([None]: it is never set).  The result is what ended the loop
    and the lines printed. *)
Fixpoint read_pipe `{Externals} (checks : option nat) (lines : list string)
    (printed : list fstring) : outcome unit * list fstring :=
  match checks, lines with
  | Some O, _ => (Return tt, printed)
  | _, [] => (Return tt, printed)
  | _, line :: rest =>
      let checks' := match checks with Some (S n) => Some n | other => other end in
      if String.eqb line "" then (Return tt, printed) else
      match decode_utf8 line with
      | Raise e => (Raise e, printed)
      | Return text =>
          let line_str := strip text in
          if String.eqb line_str "" then read_pipe checks' rest printed else
          match report_message line_str with
          | Return text => read_pipe checks' rest (printed ++ [text])
          | Raise e => (Raise e, printed)
          end
      end
  end.

Definition stream_reader `{Externals} (checks : option nat) (lines : list string)
  : outcome unit * list fstring :=
  read_pipe checks lines pipeline_header.

(** A line of the server's output that the reader prints as a log line:
    UTF-8, not blank, and no JSON. *)
Definition plain_log `{Externals} (line : string) : Prop :=
  utf8_valid line = true /\
  String.eqb (strip line) "" = false /\
  json_loads (strip line) = None.

(** What the reader prints for a log line. *)
Definition log_line (line : string) : fstring :=
  [Lit "[LOG] "; Fmt (JStr (strip line))].

(** A line that is only white space: read, and skipped. *)
Definition blank_line (line : string) : Prop :=
  utf8_valid line = true /\
  String.eqb line "" = false /\
  String.eqb (strip line) "" = true.

Definition not_blank (line : string) : bool := negb (String.eqb (strip line) "").

(** A byte that is a printable ASCII character other than the space: no
    character that [strip] removes holds such a byte. *)
Definition edge (c : ascii) : bool := byte_in 33 127 c.

Fixpoint edgeless (s : string) : bool :=
  match s with
  | EmptyString => true
  | String c s' => negb (edge c) && edgeless s'
  end.

(** A string that begins and ends with such a byte. *)
Definition edge_ends (s : string) : bool :=
  match s, rev_string "" s with
  | String a _, String z _ => edge a && edge z
  | _, _ => false
  end.



(* ================================================================== *)
(** * Properties *)

(** ** Strings and dicts *)

Lemma prefix_app (sub post : string) : String.prefix sub (sub ++ post)%string = true.
Proof.
  induction sub as [|c sub IH]; simpl.
  - now destruct post.
  - destruct (ascii_dec c c) as [_|ne]; [exact IH | now elim ne].
Qed.

Lemma prefix_split (sub s : string) :
  String.prefix sub s = true -> exists post, s = (sub ++ post)%string.
Proof.
  revert s; induction sub as [|c sub IH]; intros s Hp.
  - now exists s.
  - destruct s as [|d s]; simpl in Hp; [discriminate|].
    destruct (ascii_dec c d) as [->|]; [|discriminate].
    destruct (IH s Hp) as [post ->]. now exists post.
Qed.

(** [contains] is Python's [in]: the substring stands somewhere in the
    string, letter for letter. *)
Lemma contains_spec (sub s : string) :
  contains sub s = true <-> exists pre post, s = (pre ++ sub ++ post)%string.
Proof.
  split.
  - induction s as [|c s IH]; cbn [contains]; intros Hc.
    + rewrite orb_false_r in Hc.
      destruct (prefix_split _ _ Hc) as [post Hs]. now exists ""%string, post.
    + apply orb_true_iff in Hc as [Hp|Hc].
      * destruct (prefix_split _ _ Hp) as [post Hs]. now exists ""%string, post.
      * destruct (IH Hc) as (pre & post & ->). now exists (String c pre), post.
  - intros (pre & post & ->).
    induction pre as [|c pre IH].
    + change ("" ++ sub ++ post)%string with (sub ++ post)%string.
      destruct (sub ++ post)%string eqn:Hs; cbn [contains];
        rewrite <- Hs, prefix_app; reflexivity.
    + change (String c pre ++ sub ++ post)%string
        with (String c (pre ++ sub ++ post))%string.
      cbn [contains]. rewrite IH. apply orb_true_r.
Qed.

Lemma dict_get_set_other (k k' : string) (v : json) (members : list (string * json)) :
  String.eqb k' k = false ->
  dict_get k' (dict_set k v members) = dict_get k' members.
Proof.
  intros Hk. induction members as [|[k0 v0] rest IH]; simpl.
  - now rewrite Hk.
  - destruct (String.eqb k k0) eqn:Hk0; simpl.
    + apply String.eqb_eq in Hk0 as <-. now rewrite Hk.
    + now rewrite IH.
Qed.

(** ** The monad *)

Lemma bind_Return {A B} (c : M A) (k : A -> M B) w a w' :
  c w = (Return a, w') -> bind c k w = k a w'.
Proof. unfold bind. now intros ->. Qed.

Lemma bind_Raise {A B} (c : M A) (k : A -> M B) w e w' :
  c w = (Raise e, w') -> bind c k w = (Raise e, w').
Proof. unfold bind. now intros ->. Qed.


(** ** Only [Exception]s *)
















Lemma safe_modify f : safe (modify f).
Proof. intros w e w' [=]. Qed.

Lemma safe_emit ev : safe (emit ev).
Proof. apply safe_modify. Qed.



Lemma safe_try_except {A} (body : M A) handler :
  safe body -> (forall e, safe (handler e)) -> safe (try_except body handler).
Proof.
  intros Hb Hh w e w'. unfold try_except.
  destruct (body w) as [[a|e0] w1] eqn:Hbw; [intros [=]|].
  destruct (is_Exception e0) eqn:He0.
  - apply Hh.
  - intros [= <- _]. exact (Hb _ _ _ Hbw).
Qed.


(** ** send_request, case by case *)

Lemma send_request_cases `{Externals} method params w :
  send_request method params w =
    if stdin_broken w then
      (Raise BrokenPipeError, set_request_id (request_id w + 1) w)
    else
      match stdout_lines w with
      | [] => (Raise closed_stdout, requested method params w)
      | line :: rest =>
          if String.eqb line "" then (Raise closed_stdout, exchanged method params rest w)
          else
            (let? text := decode_utf8 line in
             let? response := loads (JStr text) in
             read_response response,
             exchanged method params rest w)
      end.
Proof.
  unfold send_request, bind, modify, gets, stdin_write, stdout_readline, raise, lift.
  cbn -[make_request decode_utf8 loads read_response String.eqb].
  destruct (stdin_broken w) eqn:Hb; [reflexivity|].
  cbn -[make_request decode_utf8 loads read_response String.eqb].
  destruct (stdout_lines w) as [|line rest] eqn:Hl.
  - reflexivity.
  - cbn -[make_request decode_utf8 loads read_response String.eqb].
    destruct (String.eqb line "") eqn:Hline; [reflexivity|].
    unfold and_then.
    destruct (decode_utf8 line) as [text|e]; [|reflexivity].
    destruct (loads (JStr text)) as [response|e]; reflexivity.
Qed.

Lemma send_request_answered `{Externals} method params w line rest response :
  answers w line rest response ->
  send_request method params w =
    (read_response response, exchanged method params rest w).
Proof.
  intros (Hb & Hl & Hne & Hu & Hj).
  rewrite send_request_cases, Hb, Hl, Hne.
  unfold decode_utf8. rewrite Hu. simpl. rewrite Hj. reflexivity.
Qed.

Lemma send_request_closed `{Externals} method params w :
  stdin_broken w = false -> stdout_lines w = [] ->
  send_request method params w = (Raise closed_stdout, requested method params w).
Proof. intros Hb Hl. now rewrite send_request_cases, Hb, Hl. Qed.

Lemma read_response_result members :
  dict_get "error" members = None ->
  read_response (JObj members) = Return (result_of members).
Proof. intros He. unfold read_response, result_of. simpl. now rewrite He. Qed.

Lemma read_response_error members err :
  dict_get "error" members = Some err ->
  read_response (JObj members) = Raise (remote_error err).
Proof. intros He. unfold read_response. simpl. now rewrite He. Qed.





(** ** The protocol client *)

(** C1, as the code has it: a call sends the next request id, and the id
    of the response is never looked at.  A response without an error
    field is the call's result whatever id it carries (or none): its
    [result] field, or [None]. *)
Theorem send_request_ignores_response_id `{Externals} method params w line rest members :
  dict_get "error" members = None ->
  (answers w line rest (JObj members) \/
   exists id, answers w line rest (JObj (dict_set "id" id members))) ->
  send_request method params w =
    (Return (result_of members), exchanged method params rest w) /\
  request_id (exchanged method params rest w) = request_id w + 1 /\
  stdin_written (exchanged method params rest w) =
    stdin_written w ++ [make_request (request_id w + 1) method params].
Proof.
  intros He Ha. split; [|split; reflexivity].
  destruct Ha as [Ha|[id Ha]].
  - rewrite (send_request_answered _ _ _ _ _ _ Ha). now rewrite read_response_result.
  - rewrite (send_request_answered _ _ _ _ _ _ Ha).
    rewrite read_response_result.
    + unfold result_of. now rewrite dict_get_set_other.
    + now rewrite dict_get_set_other.
Qed.

(** C1 at a concrete line: the first request has id 1, the answer
    carries id 7. *)
Lemma send_request_ignores_response_id_witness :
  @send_request (with_llm talking_llm) "tools/list" None (fresh [other_id_line] []) =
    (Return (JObj [("ok", JBool true)]),
     exchanged "tools/list" None [] (fresh [other_id_line] [])) /\
  request_id (exchanged "tools/list" None [] (fresh [other_id_line] [])) = 0 + 1 /\
  stdin_written (exchanged "tools/list" None [] (fresh [other_id_line] [])) =
    [] ++ [make_request (0 + 1) "tools/list" None].
Proof.
  apply (@send_request_ignores_response_id (with_llm talking_llm)
           "tools/list" None (fresh [other_id_line] []) other_id_line []
           [("jsonrpc", JStr "2.0"); ("id", JInt 1); ("result", JObj [("ok", JBool true)])]).
  - reflexivity.
  - right. exists (JInt 7). repeat split; vm_compute; reflexivity.
Defined.

(** C1 as stated fails: the request sent has id 1, the response read has
    id 7, and the call returns its result; nothing is raised. *)
Lemma send_request_returns_other_id :
  json_decode other_id_line =
    Some (JObj [("jsonrpc", JStr "2.0"); ("id", JInt 7); ("result", JObj [("ok", JBool true)])]) /\
  fst (@send_request (with_llm talking_llm) "tools/list" None (fresh [other_id_line] [])) =
    Return (JObj [("ok", JBool true)]) /\
  stdin_written
    (snd (@send_request (with_llm talking_llm) "tools/list" None (fresh [other_id_line] []))) =
    [JObj [("jsonrpc", JStr "2.0"); ("id", JInt 1);
           ("method", JStr "tools/list"); ("params", JObj [])]].
Proof. vm_compute. repeat split. Qed.

(** C7: a response with an [error] field makes the call raise the error
    that carries the field's value (its code and message); no result is
    returned, also when the response has a [result] beside the error. *)
Theorem error_response_raises `{Externals} method params w line rest members err :
  answers w line rest (JObj members) ->
  dict_get "error" members = Some err ->
  send_request method params w =
    (Raise (RuntimeError [Lit "MCP error: "; Fmt err]), exchanged method params rest w).
Proof.
  intros Ha He.
  rewrite (send_request_answered _ _ _ _ _ _ Ha).
  now rewrite (read_response_error _ _ He).
Qed.

(** C7 on the line of scenario B. *)
Lemma error_response_raises_witness :
  @send_request (with_llm talking_llm) "tools/call" None (fresh [error_line] []) =
    (Raise (RuntimeError
              [Lit "MCP error: ";
               Fmt (JObj [("code", JInt (-1)); ("message", JStr "bad")])]),
     exchanged "tools/call" None [] (fresh [error_line] [])).
Proof.
  apply (@error_response_raises (with_llm talking_llm) "tools/call" None
           (fresh [error_line] []) error_line []
           [("jsonrpc", JStr "2.0"); ("id", JInt 1);
            ("error", JObj [("code", JInt (-1)); ("message", JStr "bad")])]).
  - repeat split; vm_compute; reflexivity.
  - reflexivity.
Defined.

(** ** The helpers on top of send_request *)

Lemma call_tool_answered `{Externals} name arguments w line rest members :
  answers w line rest (JObj members) ->
  dict_get "error" members = None ->
  call_tool name arguments w =
    ((let? contents := py_get (result_of members) "content" (JArr []) in
      if truthy contents then
        let? first := py_first contents in
        let? text := py_get first "text" (JStr "") in
        match loads text with
        | Raise JSONDecodeError => Return text
        | r => r
        end
      else Return JNull),
     exchanged "tools/call"
       (Some (JObj [("name", JStr name); ("arguments", arguments)])) rest w).
Proof.
  intros Ha He. unfold call_tool.
  rewrite (bind_Return _ _ _ _ _
             (eq_trans (send_request_answered _ _ _ _ _ _ Ha)
                       (f_equal (fun r => (r, _)) (read_response_result _ He)))).
  unfold bind, lift, ret, and_then.
  destruct (py_get (result_of members) "content" (JArr [])) as [contents|e]; [|reflexivity].
  destruct (truthy contents); [|reflexivity].
  destruct (py_first contents) as [first|e]; [|reflexivity].
  destruct (py_get first "text" (JStr "")) as [text|e]; [|reflexivity].
  destruct (loads text) as [v|[]]; reflexivity.
Qed.

Lemma read_resource_answered `{Externals} uri w line rest members :
  answers w line rest (JObj members) ->
  dict_get "error" members = None ->
  read_resource uri w =
    ((let? contents := py_get (result_of members) "contents" (JArr []) in
      if truthy contents then
        let? first := py_first contents in
        py_get first "text" (JStr "")
      else Return (JStr "")),
     exchanged "resources/read" (Some (JObj [("uri", JStr uri)])) rest w).
Proof.
  intros Ha He. unfold read_resource.
  rewrite (bind_Return _ _ _ _ _
             (eq_trans (send_request_answered _ _ _ _ _ _ Ha)
                       (f_equal (fun r => (r, _)) (read_response_result _ He)))).
  unfold bind, lift, ret, and_then.
  destruct (py_get (result_of members) "contents" (JArr [])) as [contents|e]; [|reflexivity].
  destruct (truthy contents); [|reflexivity].
  destruct (py_first contents) as [first|e]; reflexivity.
Qed.



(** C10: a [resources/read] result without [contents], with an empty
    [contents], or with a first item without [text] gives the empty
    string; a [tools/call] result with an empty [content] gives [None].
    Neither raises. *)
Theorem empty_contents_give_defaults `{Externals} w line rest members result :
  answers w line rest (JObj members) ->
  dict_get "error" members = None ->
  dict_get "result" members = Some (JObj result) ->
  (forall uri,
     dict_get "contents" result = None \/
     dict_get "contents" result = Some (JArr []) \/
     (exists item more,
        dict_get "contents" result = Some (JArr (JObj item :: more)) /\
        dict_get "text" item = None) ->
     read_resource uri w =
       (Return (JStr ""),
        exchanged "resources/read" (Some (JObj [("uri", JStr uri)])) rest w)) /\
  (forall name arguments,
     dict_get "content" result = Some (JArr []) ->
     call_tool name arguments w =
       (Return JNull,
        exchanged "tools/call"
          (Some (JObj [("name", JStr name); ("arguments", arguments)])) rest w)).
Proof.
  intros Ha He Hr. split.
  - intros uri Hc.
    rewrite (read_resource_answered _ _ _ _ _ Ha He).
    unfold result_of. rewrite Hr. simpl.
    destruct Hc as [->|[->|(item & more & -> & Ht)]]; simpl; try reflexivity.
    now rewrite Ht.
  - intros name arguments Hc.
    rewrite (call_tool_answered _ _ _ _ _ _ Ha He).
    unfold result_of. rewrite Hr. simpl. now rewrite Hc.
Qed.

(** C10 on two lines: a result without [contents] read as a resource, a
    result with an empty [content] read as a tool result. *)
Lemma empty_contents_give_defaults_witness :
  fst (@read_resource (with_llm talking_llm) "game://state"
         (fresh [no_contents_line] [])) = Return (JStr "") /\
  fst (@call_tool (with_llm talking_llm) "game.send_intent" (JObj [])
         (fresh [no_content_line] [])) = Return JNull.
Proof.
  split.
  - rewrite (proj1 (@empty_contents_give_defaults (with_llm talking_llm)
               (fresh [no_contents_line] []) no_contents_line []
               [("jsonrpc", JStr "2.0"); ("id", JInt 1); ("result", JObj [])] []
               ltac:(repeat split; vm_compute; reflexivity) eq_refl eq_refl)
             "game://state" (or_introl eq_refl)).
    reflexivity.
  - rewrite (proj2 (@empty_contents_give_defaults (with_llm talking_llm)
               (fresh [no_content_line] []) no_content_line []
               [("jsonrpc", JStr "2.0"); ("id", JInt 1);
                ("result", JObj [("content", JArr [])])]
               [("content", JArr [])]
               ltac:(repeat split; vm_compute; reflexivity) eq_refl eq_refl)
             "game.send_intent" (JObj []) eq_refl).
    reflexivity.
Defined.

(** ** The tool catalog *)

Lemma convert_tools_adapts fetched :
  (forall tool, In tool fetched ->
     exists members name, tool = JObj members /\ dict_get "name" members = Some name) ->
  exists converted,
    convert_tools fetched = Return converted /\ Forall2 adapts fetched converted.
Proof.
  induction fetched as [|tool rest IH]; intros Hn.
  - exists []. split; [reflexivity|constructor].
  - destruct (Hn tool (or_introl eq_refl)) as (members & name & -> & Hname).
    destruct IH as (more & Hmore & Hall); [intros t Ht; apply Hn; now right|].
    eexists. split.
    + cbn [convert_tools]. unfold convert_tool, py_item, py_get.
      rewrite Hname. cbn [and_then]. rewrite Hmore. reflexivity.
    + constructor; [|exact Hall]. exists members, name. repeat split; assumption.
Qed.

(** C8: every fetched tool that is a dict with a name has one converted
    entry, at the same place in the list, with the same name, the same
    description and the same input schema. *)
Theorem converted_tools_keep_fields (w : world) (fetched : list json) :
  tools w = JArr fetched ->
  (forall tool, In tool fetched ->
     exists members name, tool = JObj members /\ dict_get "name" members = Some name) ->
  exists converted,
    convert_mcp_tools_to_openai_format w = (Return converted, w) /\
    length converted = length fetched /\
    Forall2 adapts fetched converted.
Proof.
  intros Ht Hn. destruct (convert_tools_adapts fetched Hn) as (converted & Hc & Hall).
  exists converted. split; [|split].
  - unfold convert_mcp_tools_to_openai_format, bind, gets, lift. rewrite Ht. simpl.
    now rewrite Hc.
  - symmetry. exact (Forall2_length Hall).
  - exact Hall.
Qed.

(** C8 on the tool list of scenario A. *)
Lemma converted_tools_keep_fields_witness :
  exists converted,
    convert_mcp_tools_to_openai_format
      (set_tools (JArr [scenario_tool]) (fresh [] [])) =
      (Return converted, set_tools (JArr [scenario_tool]) (fresh [] [])) /\
    length converted = length [scenario_tool] /\
    Forall2 adapts [scenario_tool] converted.
Proof.
  apply (converted_tools_keep_fields
           (set_tools (JArr [scenario_tool]) (fresh [] [])) [scenario_tool]).
  - reflexivity.
  - intros tool [<-|[]]. eexists _, _. split; reflexivity.
Defined.

(** Scenario A, from the wire to the catalog: the agent initialized on
    the [tools/list] line of the scenario offers the LLM exactly one
    function, named [game.send_intent]. *)
Example scenario_A_catalog :
  fst (convert_mcp_tools_to_openai_format
         (snd (@initialize (with_llm talking_llm) (fresh [tools_line; summary_line] [])))) =
    Return [JObj [ ("type", JStr "function");
                   ("function", JObj [ ("name", JStr "game.send_intent");
                                       ("description", JStr "d");
                                       ("parameters", JObj []) ]) ]].
Proof. vm_compute. reflexivity. Qed.

(** ** The reader of the server's log *)

Lemma is_noise_spec decoded :
  is_noise decoded = true <->
  exists noise pre post,
    In noise noise_substrings /\ decoded = (pre ++ noise ++ post)%string.
Proof.
  unfold is_noise. rewrite existsb_exists. split.
  - intros (noise & Hin & Hc). apply contains_spec in Hc as (pre & post & ->).
    now exists noise, pre, post.
  - intros (noise & pre & post & Hin & ->). exists noise. split; [exact Hin|].
    apply contains_spec. now exists pre, post.
Qed.

(** C4, as the code has it: a decoded line is kept from the console
    exactly when it contains one of the configured substrings letter for
    letter (in the casing of the configuration), at any place; every
    other line is printed, and every line is queued. *)
Theorem noise_is_case_sensitive_substring (decoded : string) (r : stderr_reader) :
  (printed (read_stderr_line decoded r) = printed r <->
   exists noise pre post,
     In noise noise_substrings /\ decoded = (pre ++ noise ++ post)%string) /\
  (printed (read_stderr_line decoded r) = printed r \/
   printed (read_stderr_line decoded r) =
     printed r ++ [String.append "[MCP Server] " decoded]) /\
  queued (read_stderr_line decoded r) = queued r ++ [decoded].
Proof.
  rewrite <- is_noise_spec. unfold read_stderr_line.
  destruct (is_noise decoded); simpl.
  - repeat split; auto.
  - split; [|split; [now right|reflexivity]].
    split; [|discriminate].
    intros Hp. apply (f_equal (@length _)) in Hp.
    rewrite length_app in Hp. simpl in Hp. lia.
Qed.

(** C4 as stated fails: the line [tick: 5] holds the noise substring
    [Tick:] in another casing, and the reader prints it. *)
Lemma lowercase_tick_line_is_printed :
  noise_in_any_casing "tick: 5" = true /\
  is_noise "tick: 5" = false /\
  printed (_read_stderr [String.append "tick: 5" newline] (mkReader [] [])) =
    ["[MCP Server] tick: 5"%string].
Proof. vm_compute. repeat split. Qed.

(** Scenario C: the line [Tick: 5] is queued and not printed. *)
Example scenario_C_noise :
  _read_stderr [String.append "Tick: 5" newline;
                String.append "Game connected successfully" newline]
    (mkReader [] []) =
    mkReader ["Tick: 5"; "Game connected successfully"]%string
             ["[MCP Server] Game connected successfully"%string].
Proof. vm_compute. reflexivity. Qed.

(** ** What a turn leaves alone *)

















(** ** A turn raises nothing but [Exception]s *)








(** ** The turn boundary *)

Lemma execute_turn_cases `{Externals} w :
  execute_turn w =
    match turn_body (start_turn w) with
    | (Raise e, w') =>
        if is_Exception e then (Return tt, report_turn_error e w') else (Raise e, w')
    | r => r
    end.
Proof.
  unfold execute_turn, bind, modify, gets, say, emit, try_except. simpl.
  change (logged (Say [Lit bar])
            (logged (Say [Lit "Turn "; Fmt (JInt (turn_count w + 1))])
               (logged (Say [Lit newline; Lit bar])
                  (set_turn_count (turn_count w + 1) w))))
    with (start_turn w).
  destruct (turn_body (start_turn w)) as [[[]|e] w']; [reflexivity|].
  destruct (is_Exception e); reflexivity.
Qed.


Lemma sleep_returns w :
  sigint_at w = None ->
  sleep TURN_INTERVAL_SECONDS w = (Return tt, paused w).
Proof.
  intros Hs. unfold sleep, bind, emit, modify, gets, ret. simpl. now rewrite Hs.
Qed.

Lemma turn_loop_step `{Externals} fuel w w1 :
  execute_turn w = (Return tt, w1) -> sigint_at w1 = None ->
  turn_loop (S fuel) w = turn_loop fuel (paused w1).
Proof.
  intros He Hs. cbn [turn_loop].
  rewrite (bind_Return _ _ _ _ _ He).
  now rewrite (bind_Return _ _ _ _ _ (sleep_returns _ Hs)).
Qed.




(** ** The tool calls of one turn *)

Lemma call_tool_world `{Externals} name arguments w :
  snd (call_tool name arguments w) =
  snd (send_request "tools/call"
         (Some (JObj [("name", JStr name); ("arguments", arguments)])) w).
Proof.
  unfold call_tool, bind.
  destruct (send_request _ _ w) as [[result|e] w0]; [|reflexivity].
  unfold lift, ret.
  destruct (py_get result "content" (JArr [])) as [contents|e]; [|reflexivity].
  destruct (truthy contents); [|reflexivity].
  destruct (py_first contents) as [first|e]; [|reflexivity].
  destruct (py_get first "text" (JStr "")) as [text|e]; [|reflexivity].
  destruct (loads text) as [v|[]]; reflexivity.
Qed.

Lemma call_tool_writes `{Externals} name arguments w :
  (stdin_written (snd (call_tool name arguments w)) = stdin_written w /\
   exists e, fst (call_tool name arguments w) = Raise e) \/
  stdin_written (snd (call_tool name arguments w)) =
    stdin_written w ++ [tool_request (request_id w + 1) name arguments].
Proof.
  rewrite call_tool_world.
  unfold call_tool, bind. rewrite send_request_cases.
  destruct (stdin_broken w).
  - left. split; [reflexivity|]. now exists BrokenPipeError.
  - right. destruct (stdout_lines w) as [|line rest]; [reflexivity|].
    destruct (String.eqb line ""); reflexivity.
Qed.

Lemma execute_tool_call_writes `{Externals} call w :
  (stdin_written (snd (execute_tool_call call w)) = stdin_written w /\
   exists e, fst (execute_tool_call call w) = Raise e) \/
  (exists request,
     requests call request /\
     stdin_written (snd (execute_tool_call call w)) = stdin_written w ++ [request]).
Proof.
  unfold execute_tool_call, bind, lift, say, emit, modify.
  destruct (loads (JStr (function_arguments call))) as [arguments|e] eqn:Hl.
  - set (w1 := logged _ (logged _ w)).
    destruct (call_tool_writes (function_name call) arguments w1) as [[Hw [e He]]|Hw].
    + left. destruct (call_tool _ _ w1) as [[result|e'] w2]; simpl in *; [discriminate|].
      split; [exact Hw|now exists e'].
    + right. exists (tool_request (request_id w + 1) (function_name call) arguments).
      split; [now exists (request_id w + 1), arguments|].
      destruct (call_tool _ _ w1) as [[result|e'] w2]; simpl in *; exact Hw.
  - left. split; [reflexivity|now exists e].
Qed.




(** When no call fails, both are sent, in the order of the LLM. *)
Example both_calls_in_order :
  map requested_tool
    (stdin_written
       (snd (@execute_turn (with_llm eager_llm)
               (fresh [state_line; plain_line; plain_line] [])))) =
    [None; Some "game.get_player_actions"%string; Some "game.set_attack_ratio"%string].
Proof. vm_compute. reflexivity. Qed.

(** ** Initialization and main *)

Lemma main_fatal `{Externals} fuel w e w' :
  session fuel (banner w) = (Raise e, w') -> is_Exception e = true ->
  main fuel w = (Fatal e, cleanup (report_fatal e w')).
Proof.
  intros Hs He. unfold main. rewrite Hs.
  destruct e; try reflexivity; discriminate He.
Qed.

Lemma cleanup_ends_process w : proc (cleanup w) <> Alive.
Proof. unfold cleanup. simpl. destruct (exits_on_terminate w); discriminate. Qed.

Lemma session_connected `{Externals} fuel w w1 :
  connect w = (Return tt, w1) ->
  session fuel w =
    bind initialize
      (fun _ =>
         say [Lit "Starting AI turn loop (every "; Fmt (JInt TURN_INTERVAL_SECONDS);
              Lit " seconds)"] ;;
         say [Lit "   Press Ctrl+C to stop"] ;;
         turn_loop fuel) w1.
Proof. intros Hc. unfold session. now rewrite (bind_Return _ _ _ _ _ Hc). Qed.

Lemma load_tools_fails `{Externals} w e w' :
  list_tools (noted [Lit "Initializing agent..."] w) = (Raise e, w') ->
  initialize w = (Raise e, w').
Proof.
  intros Hl. unfold initialize, load_tools, bind, say, emit, modify.
  change (logged (Say [Lit "Initializing agent..."]) w)
    with (noted [Lit "Initializing agent..."] w).
  now rewrite Hl.
Qed.




(** ** The server closes its output *)

Lemma turn_on_closed_stdout `{Externals} w :
  stdin_broken w = false -> stdout_lines w = [] ->
  execute_turn w =
    (Return tt,
     report_turn_error closed_stdout
       (requested "resources/read" (Some (JObj [("uri", JStr "game://state")]))
          (start_turn w))).
Proof.
  intros Hb Hl. rewrite execute_turn_cases.
  unfold turn_body, get_game_state, read_resource.
  rewrite (bind_Raise _ _ (start_turn w) closed_stdout
             (requested "resources/read" (Some (JObj [("uri", JStr "game://state")]))
                (start_turn w))).
  - reflexivity.
  - apply bind_Raise, bind_Raise. now apply send_request_closed.
Qed.

Lemma turn_errors_app w ev :
  turn_errors (logged ev w) =
  turn_errors w ++ match ev with
                   | SayError "Error during turn: " e => [e]
                   | _ => []
                   end.
Proof. unfold turn_errors, logged. simpl. rewrite flat_map_app. simpl. now rewrite app_nil_r. Qed.

Lemma turn_errors_failed_turn w e method params :
  turn_errors (paused (report_turn_error e (requested method params (start_turn w)))) =
  turn_errors w ++ [e].
Proof.
  unfold paused, report_turn_error. rewrite !turn_errors_app.
  change (turn_errors (requested method params (start_turn w)))
    with (turn_errors (start_turn w)).
  unfold start_turn, noted. rewrite !turn_errors_app.
  change (turn_errors (set_turn_count (turn_count w + 1) w)) with (turn_errors w).
  simpl. rewrite !app_nil_r. reflexivity.
Qed.

Lemma loop_on_closed_stdout `{Externals} fuel : forall w,
  stdin_broken w = false -> stdout_lines w = [] -> sigint_at w = None ->
  exists w',
    turn_loop fuel w = (Return tt, w') /\
    turn_count w' = turn_count w + Z.of_nat fuel /\
    turn_errors w' = turn_errors w ++ repeat closed_stdout fuel.
Proof.
  induction fuel as [|fuel IH]; intros w Hb Hl Hs.
  - exists w. simpl. rewrite app_nil_r, Z.add_0_r. repeat split.
  - rewrite (turn_loop_step fuel _ _ (turn_on_closed_stdout w Hb Hl) Hs).
    destruct (IH (paused (report_turn_error closed_stdout
                    (requested "resources/read"
                       (Some (JObj [("uri", JStr "game://state")])) (start_turn w))))
                Hb Hl Hs) as (w' & Hloop & Ht & He).
    exists w'. split; [exact Hloop|split].
    + rewrite Ht. simpl. lia.
    + rewrite He, turn_errors_failed_turn, <- app_assoc. reflexivity.
Qed.

(** C6, as the code has it: when the read of the server's output gives
    nothing, [send_request] raises its closed-output error.  Raised while
    [initialize] fetches the tools, it ends the session after cleanup.
    Raised inside a turn, it is caught at the turn boundary like any
    other [Exception]: the turn is logged as failed and the loop goes on,
    turn after turn. *)
Theorem closed_stdout_is_fatal_only_in_initialization `{Externals} (w : world) :
  stdin_broken w = false ->
  stdout_lines w = [] ->
  (forall method params,
     send_request method params w = (Raise closed_stdout, requested method params w)) /\
  (forall fuel w0,
     connect (banner w0) = (Return tt, w) ->
     main fuel w0 =
       (Fatal closed_stdout,
        cleanup (report_fatal closed_stdout
                   (requested "tools/list" None
                      (noted [Lit "Initializing agent..."] w))))) /\
  execute_turn w =
    (Return tt,
     report_turn_error closed_stdout
       (requested "resources/read" (Some (JObj [("uri", JStr "game://state")]))
          (start_turn w))) /\
  (sigint_at w = None ->
   forall fuel, exists w',
     turn_loop fuel w = (Return tt, w') /\
     turn_count w' = turn_count w + Z.of_nat fuel /\
     turn_errors w' = turn_errors w ++ repeat closed_stdout fuel).
Proof.
  intros Hb Hl. split; [|split; [|split]].
  - intros method params. now apply send_request_closed.
  - intros fuel w0 Hc.
    assert (Hi : initialize w =
                 (Raise closed_stdout,
                  requested "tools/list" None (noted [Lit "Initializing agent..."] w))).
    { apply load_tools_fails. unfold list_tools. apply bind_Raise.
      now apply send_request_closed. }
    apply main_fatal; [|reflexivity].
    rewrite (session_connected _ _ _ Hc). now rewrite (bind_Raise _ _ _ _ _ Hi).
  - now apply turn_on_closed_stdout.
  - intros Hs fuel. now apply loop_on_closed_stdout.
Qed.

(** C6 on a server that has closed its output. *)
Lemma closed_stdout_is_fatal_only_in_initialization_witness :
  @send_request (with_llm talking_llm) "tools/list" None (fresh [] []) =
    (Raise closed_stdout, requested "tools/list" None (fresh [] [])) /\
  exists w',
    @turn_loop (with_llm talking_llm) 3 (fresh [] []) = (Return tt, w') /\
    turn_count w' = 0 + Z.of_nat 3 /\
    turn_errors w' = [] ++ repeat closed_stdout 3.
Proof.
  destruct (@closed_stdout_is_fatal_only_in_initialization (with_llm talking_llm)
              (fresh [] []) eq_refl eq_refl) as (Hsend & _ & _ & Hloop).
  split; [apply Hsend|apply Hloop; reflexivity].
Defined.

(** C6 as stated fails: the server answers the two requests of
    [initialize] and closes its output.  Each turn then meets the closed
    output; after three turns the loop is still running, the server
    process has not been terminated, and the console shows the same
    error three times. *)
Lemma closed_stdout_in_turn_keeps_looping :
  fst (@main (with_llm talking_llm) 3 (fresh [tools_line; summary_line] sentinel_queue)) =
    StillLooping /\
  proc (snd (@main (with_llm talking_llm) 3
               (fresh [tools_line; summary_line] sentinel_queue))) = Alive /\
  turn_count (snd (@main (with_llm talking_llm) 3
                     (fresh [tools_line; summary_line] sentinel_queue))) = 3 /\
  turn_errors (snd (@main (with_llm talking_llm) 3
                      (fresh [tools_line; summary_line] sentinel_queue))) =
    [closed_stdout; closed_stdout; closed_stdout].
Proof. vm_compute. repeat split. Qed.

(** Scenario D at the start of the session: the output is closed when
    the tools are fetched, and [main] ends after its cleanup. *)
Example scenario_D_in_initialization :
  fst (@main (with_llm talking_llm) 3 (fresh [] sentinel_queue)) = Fatal closed_stdout /\
  proc (snd (@main (with_llm talking_llm) 3 (fresh [] sentinel_queue))) = Exited.
Proof. vm_compute. split; reflexivity. Qed.

(* ================================================================== *)
(** * Further properties of the code *)

(** ** wait_for_connection *)

Lemma wait_for_queue_found before line rest :
  Forall no_sentinel before ->
  contains "Game connected successfully" line = true ->
  wait_for_queue (before ++ line :: rest) = (Return true, rest).
Proof.
  intros Hb Hl. induction Hb as [|l before Hno _ IH]; simpl.
  - now rewrite Hl.
  - unfold no_sentinel in Hno. now rewrite Hno.
Qed.

Lemma wait_for_queue_timeout queue :
  Forall no_sentinel queue ->
  wait_for_queue queue = (Raise handshake_timeout, []).
Proof.
  intros Hq. induction Hq as [|l queue Hno _ IH]; simpl.
  - reflexivity.
  - unfold no_sentinel in Hno. now rewrite Hno.
Qed.

(** X1: [wait_for_connection] returns [True] at the first queued line that
    holds the sentinel: the lines before it are taken from the queue and
    dropped, the lines after it stay.  When no queued line holds the
    sentinel it raises [TimeoutError] and the queue is empty. *)
Theorem wait_for_connection_first_sentinel (w : world) :
  (forall before line rest,
     stderr_queue w = before ++ line :: rest ->
     Forall no_sentinel before ->
     contains "Game connected successfully" line = true ->
     wait_for_connection w =
       (Return true, noted connected_text (set_stderr_queue rest (noted waiting_text w)))) /\
  (Forall no_sentinel (stderr_queue w) ->
   wait_for_connection w =
     (Raise handshake_timeout, set_stderr_queue [] (noted waiting_text w))).
Proof.
  split.
  - intros before line rest Hq Hb Hl.
    unfold wait_for_connection, bind, say, emit, modify, gets, lift, ret. simpl.
    rewrite Hq, (wait_for_queue_found _ _ _ Hb Hl). reflexivity.
  - intros Hq.
    unfold wait_for_connection, bind, say, emit, modify, gets, lift, ret. simpl.
    rewrite (wait_for_queue_timeout _ Hq). reflexivity.
Qed.

(** ** send_request: what goes over the pipes *)

(** X2: With a working stdin, a call writes exactly one request, with the
    next id, and takes exactly one line from stdout (none when stdout is
    at its end), whatever the line holds and however the call ends.  With
    a broken stdin it raises [BrokenPipeError] and reads nothing, and the
    id is used up all the same. *)
Theorem send_request_one_write_one_read `{Externals} method params (w : world) :
  request_id (snd (send_request method params w)) = request_id w + 1 /\
  (stdin_broken w = false ->
     stdin_written (snd (send_request method params w)) =
       stdin_written w ++ [make_request (request_id w + 1) method params] /\
     stdout_lines (snd (send_request method params w)) = tl (stdout_lines w)) /\
  (stdin_broken w = true ->
     fst (send_request method params w) = Raise BrokenPipeError /\
     stdin_written (snd (send_request method params w)) = stdin_written w /\
     stdout_lines (snd (send_request method params w)) = stdout_lines w).
Proof.
  rewrite send_request_cases.
  destruct (stdin_broken w).
  - split; [reflexivity|split; [discriminate|intros _; repeat split]].
  - destruct (stdout_lines w) as [|line rest] eqn:Hl.
    + split; [reflexivity|split; [intros _; split; [reflexivity|]|discriminate]].
      simpl. now rewrite Hl.
    + destruct (String.eqb line "");
        (split; [reflexivity|split; [intros _; split; reflexivity|discriminate]]).
Qed.

(** X3: A line that is not UTF-8 makes the call raise [UnicodeDecodeError];
    a line that is UTF-8 but that [json.loads] refuses makes it raise
    [JSONDecodeError]. *)
Theorem send_request_undecodable_line `{Externals} method params w line rest :
  stdin_broken w = false ->
  stdout_lines w = line :: rest ->
  String.eqb line "" = false ->
  (utf8_valid line = false ->
     send_request method params w =
       (Raise UnicodeDecodeError, exchanged method params rest w)) /\
  (utf8_valid line = true -> json_loads line = None ->
     send_request method params w =
       (Raise JSONDecodeError, exchanged method params rest w)).
Proof.
  intros Hb Hl Hne. rewrite send_request_cases, Hb, Hl, Hne. unfold decode_utf8.
  split.
  - intros ->. reflexivity.
  - intros -> Hj. simpl. now rewrite Hj.
Qed.

Lemma send_request_undecodable_line_witness :
  @send_request (with_llm talking_llm) "tools/list" None
     (fresh [String (ascii_of_N 255) "{}"] []) =
    (Raise UnicodeDecodeError,
     exchanged "tools/list" None [] (fresh [String (ascii_of_N 255) "{}"] [])) /\
  @send_request (with_llm talking_llm) "tools/list" None (fresh ["Server ready"] []) =
    (Raise JSONDecodeError, exchanged "tools/list" None [] (fresh ["Server ready"] [])).
Proof.
  split.
  - apply (@send_request_undecodable_line (with_llm talking_llm) "tools/list" None
             (fresh [String (ascii_of_N 255) "{}"] []) (String (ascii_of_N 255) "{}") []);
      reflexivity.
  - apply (@send_request_undecodable_line (with_llm talking_llm) "tools/list" None
             (fresh ["Server ready"] []) "Server ready" []); reflexivity.
Defined.

(** X4: A response that decodes to anything but a dict never gives a
    result: the call raises [TypeError] or [AttributeError]. *)
Theorem non_dict_response_raises `{Externals} method params w line rest response :
  answers w line rest response ->
  is_dict response = false ->
  exists e,
    send_request method params w = (Raise e, exchanged method params rest w) /\
    (e = TypeError \/ e = AttributeError).
Proof.
  intros Ha Hd. rewrite (send_request_answered _ _ _ _ _ _ Ha).
  unfold read_response.
  destruct response as [| | | |s|items|members]; try discriminate Hd;
    unfold py_in, py_item, py_get, and_then;
    try (exists TypeError; split; [reflexivity|now left]).
  - destruct (contains "error" s).
    + exists TypeError. split; [reflexivity|now left].
    + exists AttributeError. split; [reflexivity|now right].
  - destruct (existsb (py_eq (JStr "error")) items).
    + exists TypeError. split; [reflexivity|now left].
    + exists AttributeError. split; [reflexivity|now right].
Qed.

Lemma non_dict_response_raises_witness :
  exists e,
    @send_request (with_llm talking_llm) "tools/list" None (fresh [list_line] []) =
      (Raise e, exchanged "tools/list" None [] (fresh [list_line] [])) /\
    (e = TypeError \/ e = AttributeError).
Proof.
  apply (@non_dict_response_raises (with_llm talking_llm) "tools/list" None
           (fresh [list_line] []) list_line [] (JArr [JStr "error"])).
  - repeat split; vm_compute; reflexivity.
  - reflexivity.
Defined.

(** X5: A response with neither [error] nor [result] makes [send_request]
    return [None], on which each of the four helpers raises
    [AttributeError]. *)
Theorem response_without_result `{Externals} w line rest members :
  answers w line rest (JObj members) ->
  dict_get "error" members = None ->
  dict_get "result" members = None ->
  (forall method params,
     send_request method params w = (Return JNull, exchanged method params rest w)) /\
  fst (list_resources w) = Raise AttributeError /\
  fst (list_tools w) = Raise AttributeError /\
  (forall uri, fst (read_resource uri w) = Raise AttributeError) /\
  (forall name arguments, fst (call_tool name arguments w) = Raise AttributeError).
Proof.
  intros Ha He Hr.
  assert (Hs : forall method params,
             send_request method params w = (Return JNull, exchanged method params rest w)).
  { intros method params. rewrite (send_request_answered _ _ _ _ _ _ Ha).
    rewrite (read_response_result _ He). unfold result_of. now rewrite Hr. }
  split; [exact Hs|]. repeat split.
  - unfold list_resources. now rewrite (bind_Return _ _ _ _ _ (Hs _ _)).
  - unfold list_tools. now rewrite (bind_Return _ _ _ _ _ (Hs _ _)).
  - intros uri. unfold read_resource. now rewrite (bind_Return _ _ _ _ _ (Hs _ _)).
  - intros name arguments. unfold call_tool. now rewrite (bind_Return _ _ _ _ _ (Hs _ _)).
Qed.

Lemma response_without_result_witness :
  fst (@list_tools (with_llm talking_llm) (fresh [bare_line] [])) = Raise AttributeError.
Proof.
  apply (@response_without_result (with_llm talking_llm) (fresh [bare_line] [])
           bare_line [] [("jsonrpc", JStr "2.0"); ("id", JInt 1)]).
  - repeat split; vm_compute; reflexivity.
  - reflexivity.
  - reflexivity.
Defined.

(** X6: The raw-text fallback of [call_tool] is for [JSONDecodeError] only:
    a first content item whose [text] is not a string makes [call_tool]
    raise [TypeError]. *)
Theorem call_tool_text_not_a_string `{Externals}
    name arguments w line rest members result item more text :
  answers w line rest (JObj members) ->
  dict_get "error" members = None ->
  dict_get "result" members = Some (JObj result) ->
  dict_get "content" result = Some (JArr (JObj item :: more)) ->
  dict_get "text" item = Some text ->
  (forall s, text <> JStr s) ->
  call_tool name arguments w =
    (Raise TypeError,
     exchanged "tools/call"
       (Some (JObj [("name", JStr name); ("arguments", arguments)])) rest w).
Proof.
  intros Ha He Hr Hc Ht Hs.
  rewrite (call_tool_answered _ _ _ _ _ _ Ha He).
  unfold result_of. rewrite Hr. simpl. rewrite Hc. simpl. rewrite Ht.
  destruct text; try reflexivity. now elim (Hs s).
Qed.

Lemma call_tool_text_not_a_string_witness :
  @call_tool (with_llm talking_llm) "game.send_intent" (JObj [])
     (fresh [number_text_line] []) =
    (Raise TypeError,
     exchanged "tools/call"
       (Some (JObj [("name", JStr "game.send_intent"); ("arguments", JObj [])])) []
       (fresh [number_text_line] [])).
Proof.
  apply (@call_tool_text_not_a_string (with_llm talking_llm)
           "game.send_intent" (JObj []) (fresh [number_text_line] []) number_text_line []
           [("jsonrpc", JStr "2.0"); ("id", JInt 1);
            ("result", JObj [("content",
               JArr [JObj [("type", JStr "text"); ("text", JInt 5)]])])]
           [("content", JArr [JObj [("type", JStr "text"); ("text", JInt 5)]])]
           [("type", JStr "text"); ("text", JInt 5)] [] (JInt 5));
    try reflexivity.
  - repeat split; vm_compute; reflexivity.
  - intros s. discriminate.
Defined.

(** ** Request ids over a session *)

Lemma preserves_ret P {A} (a : A) : preserves P (ret a).
Proof. intros w Hw. exact Hw. Qed.

Lemma preserves_raise P {A} e : preserves P (@raise A e).
Proof. intros w Hw. exact Hw. Qed.

Lemma preserves_lift P {A} (r : outcome A) : preserves P (lift r).
Proof. intros w Hw. exact Hw. Qed.

Lemma preserves_gets P {A} (f : world -> A) : preserves P (gets f).
Proof. intros w Hw. exact Hw. Qed.

Lemma preserves_modify P f : (forall w, P w -> P (f w)) -> preserves P (modify f).
Proof. intros Hf w Hw. now apply Hf. Qed.

Lemma preserves_bind P {A B} (c : M A) (k : A -> M B) :
  preserves P c -> (forall a, preserves P (k a)) -> preserves P (bind c k).
Proof.
  intros Hc Hk w Hw. unfold bind. specialize (Hc w Hw).
  destruct (c w) as [[a|e] w1]; simpl in *; [now apply Hk|exact Hc].
Qed.

Lemma preserves_for_each P {A} (xs : list A) (body : A -> M unit) :
  (forall x, preserves P (body x)) -> preserves P (for_each xs body).
Proof.
  intros Hb. induction xs as [|x xs IH]; simpl.
  - apply preserves_ret.
  - apply preserves_bind; [apply Hb|intros _; exact IH].
Qed.

Lemma preserves_try_except P {A} (body : M A) handler :
  preserves P body -> (forall e, preserves P (handler e)) ->
  preserves P (try_except body handler).
Proof.
  intros Hb Hh w Hw. unfold try_except. specialize (Hb w Hw).
  destruct (body w) as [[a|e] w1]; simpl in *; [exact Hb|].
  destruct (is_Exception e); [now apply Hh|exact Hb].
Qed.

Lemma sorted_snoc (l : list Z) (x : Z) :
  StronglySorted Z.lt l -> Forall (fun y => y < x) l -> StronglySorted Z.lt (l ++ [x]).
Proof.
  intros Hs Hx. induction Hs as [|y l Hs IH Hy]; simpl.
  - repeat constructor.
  - inversion Hx as [|? ? Hyx Hlx]; subst. constructor; [now apply IH|].
    apply Forall_app. split; [exact Hy|now constructor].
Qed.

Lemma ids_fresh_next w (request : json) :
  ids_fresh w -> id_of request = request_id w + 1 ->
  StronglySorted Z.lt (map id_of (stdin_written w ++ [request])) /\
  Forall (fun r => id_of r <= request_id w + 1) (stdin_written w ++ [request]).
Proof.
  intros [Hs Hb] Hid. split.
  - rewrite map_app. simpl. apply sorted_snoc; [exact Hs|].
    apply Forall_map. eapply Forall_impl; [|exact Hb]. simpl. intros r Hr. lia.
  - apply Forall_app. split.
    + eapply Forall_impl; [|exact Hb]. simpl. intros r Hr. lia.
    + constructor; [lia|constructor].
Qed.

Lemma ids_fresh_send_request `{Externals} method params :
  preserves ids_fresh (send_request method params).
Proof.
  intros w Hw. rewrite send_request_cases.
  assert (Hn := ids_fresh_next w (make_request (request_id w + 1) method params) Hw eq_refl).
  destruct (stdin_broken w).
  - destruct Hw as [Hs Hb]. split; [exact Hs|].
    eapply Forall_impl; [|exact Hb]. simpl. intros r Hr. lia.
  - destruct (stdout_lines w) as [|line rest]; [exact Hn|].
    destruct (String.eqb line ""); exact Hn.
Qed.

(** Takes a goal [preserves ids_fresh c] apart along the shape of [c]. *)
Ltac ids_steps :=
  repeat first
    [ apply preserves_ret | apply preserves_raise | apply preserves_lift
    | apply preserves_gets | apply ids_fresh_send_request
    | apply preserves_modify; intros ? ?; assumption
    | apply preserves_bind; [|intros ?]
    | match goal with
      | |- preserves _ (if ?b then _ else _) => destruct b
      | |- preserves _ (match ?x with _ => _ end) => destruct x
      end ].

Lemma ids_fresh_say text : preserves ids_fresh (say text).
Proof. apply preserves_modify. intros w Hw. exact Hw. Qed.

Lemma ids_fresh_emit ev : preserves ids_fresh (emit ev).
Proof. apply preserves_modify. intros w Hw. exact Hw. Qed.

Lemma ids_fresh_read_resource `{Externals} uri : preserves ids_fresh (read_resource uri).
Proof. unfold read_resource. ids_steps. Qed.

Lemma ids_fresh_call_tool `{Externals} name arguments :
  preserves ids_fresh (call_tool name arguments).
Proof. unfold call_tool. ids_steps. Qed.

Lemma ids_fresh_execute_turn `{Externals} : preserves ids_fresh execute_turn.
Proof.
  unfold execute_turn.
  apply preserves_bind; [apply preserves_modify; intros w Hw; exact Hw|intros _].
  apply preserves_bind; [apply preserves_gets|intros turn].
  do 3 (apply preserves_bind; [apply ids_fresh_say|intros _]).
  apply preserves_try_except.
  - unfold turn_body, get_game_state, convert_mcp_tools_to_openai_format.
    apply preserves_bind;
      [apply preserves_bind; [apply ids_fresh_read_resource|intros ?; apply preserves_lift]|].
    intros game_state.
    apply preserves_bind; [apply preserves_lift|intros prompt].
    apply preserves_bind; [apply ids_fresh_say|intros _].
    apply preserves_bind; [ids_steps|intros openai_tools].
    apply preserves_bind; [apply preserves_gets|intros turn'].
    apply preserves_bind; [apply preserves_lift|intros response].
    destruct (choices response) as [|message others]; [apply preserves_raise|].
    destruct (tool_calls message) as [[|call calls]|]; try apply ids_fresh_say.
    apply preserves_for_each. intros c. unfold execute_tool_call.
    apply preserves_bind; [apply preserves_lift|intros arguments].
    do 2 (apply preserves_bind; [apply ids_fresh_say|intros _]).
    apply preserves_bind; [apply ids_fresh_call_tool|intros result].
    apply ids_fresh_say.
  - intros e. apply preserves_bind; [apply ids_fresh_emit|intros _; apply ids_fresh_emit].
Qed.

Lemma ids_fresh_turn_loop `{Externals} fuel : preserves ids_fresh (turn_loop fuel).
Proof.
  induction fuel as [|fuel IH]; simpl; [apply preserves_ret|].
  apply preserves_bind; [apply ids_fresh_execute_turn|intros _].
  apply preserves_bind; [|intros _; exact IH].
  unfold sleep. apply preserves_bind; [apply ids_fresh_emit|intros _].
  apply preserves_bind; [apply preserves_gets|intros turn].
  apply preserves_bind; [apply preserves_gets|intros pressed].
  destruct pressed as [n|]; [destruct (n =? turn)|];
    first [apply preserves_raise|apply preserves_ret].
Qed.

Lemma ids_fresh_initialize `{Externals} : preserves ids_fresh initialize.
Proof.
  unfold initialize, load_tools, load_map_summary, list_tools.
  apply preserves_bind.
  - apply preserves_bind; [apply ids_fresh_say|intros _].
    apply preserves_bind; [ids_steps|intros fetched].
    apply preserves_bind; [apply preserves_modify; intros w Hw; exact Hw|intros _].
    apply preserves_bind; [apply preserves_lift|intros count].
    apply preserves_bind; [apply ids_fresh_say|intros _].
    apply preserves_bind; [apply preserves_lift|intros items].
    apply preserves_for_each. intros tool. unfold announce_tool.
    apply preserves_bind; [apply preserves_lift|intros name].
    apply preserves_bind; [apply preserves_lift|intros description].
    apply ids_fresh_say.
  - intros _. apply preserves_try_except.
    + apply preserves_bind; [apply ids_fresh_read_resource|intros summary].
      apply preserves_bind; [apply preserves_modify; intros w Hw; exact Hw|intros _].
      apply ids_fresh_say.
    + intros e. apply ids_fresh_emit.
Qed.

Lemma connect_writes_nothing w :
  stdin_written w = [] -> ids_fresh (snd (connect w)).
Proof.
  intros Hw.
  assert (Hc : stdin_written (snd (connect w)) = []).
  { unfold connect, wait_for_connection, bind, modify, gets, say, emit, lift, ret. simpl.
    destruct (wait_for_queue (stderr_queue w)) as [[b|e] q]; simpl; exact Hw. }
  unfold ids_fresh. rewrite Hc. split; constructor.
Qed.

Lemma ids_fresh_session `{Externals} fuel w :
  stdin_written w = [] -> ids_fresh (snd (session fuel w)).
Proof.
  intros Hw. pose proof (connect_writes_nothing w Hw) as Hc.
  unfold session. unfold bind at 1.
  destruct (connect w) as [[[]|e] w1]; simpl in Hc; [|exact Hc].
  revert w1 Hc.
  change (preserves ids_fresh
            (initialize ;;
             say [Lit "Starting AI turn loop (every "; Fmt (JInt TURN_INTERVAL_SECONDS);
                  Lit " seconds)"] ;;
             say [Lit "   Press Ctrl+C to stop"] ;;
             turn_loop fuel)).
  apply preserves_bind; [apply ids_fresh_initialize|intros _].
  do 2 (apply preserves_bind; [apply ids_fresh_say|intros _]).
  apply ids_fresh_turn_loop.
Qed.

Lemma ids_fresh_cleanup w : ids_fresh w -> ids_fresh (cleanup w).
Proof.
  intros Hw. unfold cleanup. simpl. destruct (exits_on_terminate w); exact Hw.
Qed.

(** X7: In a session on a fresh server process the requests written to the
    server carry strictly increasing ids, so that no id is used twice,
    however the calls end and whether or not the session has ended. *)
Theorem session_request_ids_increase `{Externals} (fuel : nat) (w : world) :
  stdin_written w = [] ->
  StronglySorted Z.lt (map id_of (stdin_written (snd (main fuel w)))) /\
  Forall (fun request => id_of request <= request_id (snd (main fuel w)))
         (stdin_written (snd (main fuel w))).
Proof.
  intros Hw. change (ids_fresh (snd (main fuel w))).
  pose proof (ids_fresh_session fuel (banner w) Hw) as Hs.
  unfold main. destruct (session fuel (banner w)) as [[[]|e] w']; simpl in Hs.
  - exact Hs.
  - destruct e; simpl; apply ids_fresh_cleanup; exact Hs.
Qed.

Lemma session_request_ids_increase_witness :
  StronglySorted Z.lt
    (map id_of (stdin_written
       (snd (@main (with_llm eager_llm) 2
               (fresh [tools_line; summary_line; state_line; plain_line; error_line]
                      sentinel_queue))))) /\
  Forall (fun request =>
            id_of request <=
            request_id (snd (@main (with_llm eager_llm) 2
                               (fresh [tools_line; summary_line; state_line; plain_line; error_line]
                                      sentinel_queue))))
    (stdin_written
       (snd (@main (with_llm eager_llm) 2
               (fresh [tools_line; summary_line; state_line; plain_line; error_line]
                      sentinel_queue)))).
Proof.
  apply (@session_request_ids_increase (with_llm eager_llm) 2
           (fresh [tools_line; summary_line; state_line; plain_line; error_line]
                  sentinel_queue)).
  reflexivity.
Defined.

(** ** The map summary is fetched and not used *)

Lemma ignores_ret {A} (a : A) : ignores_summary (ret a).
Proof. intros w x. reflexivity. Qed.

Lemma ignores_raise {A} e : ignores_summary (@raise A e).
Proof. intros w x. reflexivity. Qed.

Lemma ignores_lift {A} (r : outcome A) : ignores_summary (lift r).
Proof. intros w x. reflexivity. Qed.

Lemma ignores_emit ev : ignores_summary (emit ev).
Proof. intros w x. reflexivity. Qed.

Lemma ignores_say text : ignores_summary (say text).
Proof. intros w x. reflexivity. Qed.

Lemma ignores_bind {A B} (c : M A) (k : A -> M B) :
  ignores_summary c -> (forall a, ignores_summary (k a)) -> ignores_summary (bind c k).
Proof.
  intros Hc Hk w x. unfold bind. rewrite (Hc w x).
  destruct (c w) as [[a|e] w1]; simpl; [apply Hk|reflexivity].
Qed.

Lemma ignores_for_each {A} (xs : list A) (body : A -> M unit) :
  (forall a, ignores_summary (body a)) -> ignores_summary (for_each xs body).
Proof.
  intros Hb. induction xs as [|a xs IH]; simpl.
  - apply ignores_ret.
  - apply ignores_bind; [apply Hb|intros _; exact IH].
Qed.

Lemma ignores_try_except {A} (body : M A) handler :
  ignores_summary body -> (forall e, ignores_summary (handler e)) ->
  ignores_summary (try_except body handler).
Proof.
  intros Hb Hh w x. unfold try_except. rewrite (Hb w x).
  destruct (body w) as [[a|e] w1]; simpl; [reflexivity|].
  destruct (is_Exception e); [apply Hh|reflexivity].
Qed.

Lemma ignores_send_request `{Externals} method params :
  ignores_summary (send_request method params).
Proof.
  intros w x. rewrite !send_request_cases.
  change (stdin_broken (set_map_summary x w)) with (stdin_broken w).
  change (stdout_lines (set_map_summary x w)) with (stdout_lines w).
  destruct (stdin_broken w); [reflexivity|].
  destruct (stdout_lines w) as [|line rest]; [reflexivity|].
  destruct (String.eqb line ""); reflexivity.
Qed.

(** Takes a goal [ignores_summary c] apart along the shape of [c]. *)
Ltac ignores_steps :=
  repeat first
    [ apply ignores_ret | apply ignores_raise | apply ignores_lift
    | apply ignores_say | apply ignores_emit | apply ignores_send_request
    | apply ignores_bind; [|intros ?]
    | match goal with
      | |- ignores_summary (if ?b then _ else _) => destruct b
      | |- ignores_summary (match ?x with _ => _ end) => destruct x
      end ].

Lemma ignores_turn_body `{Externals} : ignores_summary turn_body.
Proof.
  unfold turn_body, get_game_state, read_resource, convert_mcp_tools_to_openai_format.
  apply ignores_bind; [ignores_steps|intros game_state].
  apply ignores_bind; [apply ignores_lift|intros prompt].
  apply ignores_bind; [apply ignores_say|intros _].
  apply ignores_bind.
  { apply ignores_bind; [intros w x; reflexivity|intros fetched]. ignores_steps. }
  intros openai_tools.
  apply ignores_bind; [intros w x; reflexivity|intros turn].
  apply ignores_bind; [apply ignores_lift|intros response].
  destruct (choices response) as [|message others]; [apply ignores_raise|].
  destruct (tool_calls message) as [[|call calls]|]; try apply ignores_say.
  apply ignores_for_each. intros c. unfold execute_tool_call, call_tool.
  apply ignores_bind; [apply ignores_lift|intros arguments].
  do 2 (apply ignores_bind; [apply ignores_say|intros _]).
  apply ignores_bind; [ignores_steps|intros result]. apply ignores_say.
Qed.

Lemma ignores_execute_turn `{Externals} : ignores_summary execute_turn.
Proof.
  unfold execute_turn.
  apply ignores_bind; [intros w x; reflexivity|intros _].
  apply ignores_bind; [intros w x; reflexivity|intros turn].
  do 3 (apply ignores_bind; [apply ignores_say|intros _]).
  apply ignores_try_except; [apply ignores_turn_body|].
  intros e. apply ignores_bind; [apply ignores_emit|intros _; apply ignores_emit].
Qed.

(** X8: The map summary that [initialize] stores is never read again: a turn,
    and any number of turns with their pauses, give the same result, send
    the same requests and print the same lines whatever the summary is,
    and leave it as it was. *)
Theorem turns_ignore_map_summary `{Externals} (fuel : nat) (w : world) (summary : json) :
  execute_turn (set_map_summary summary w) =
    (fst (execute_turn w), set_map_summary summary (snd (execute_turn w))) /\
  turn_loop fuel (set_map_summary summary w) =
    (fst (turn_loop fuel w), set_map_summary summary (snd (turn_loop fuel w))).
Proof.
  split; [apply ignores_execute_turn|].
  revert w summary. change (ignores_summary (turn_loop fuel)).
  induction fuel as [|fuel IH]; simpl; [apply ignores_ret|].
  apply ignores_bind; [apply ignores_execute_turn|intros _].
  apply ignores_bind; [|intros _; exact IH].
  unfold sleep. apply ignores_bind; [apply ignores_emit|intros _].
  apply ignores_bind; [intros w x; reflexivity|intros turn].
  apply ignores_bind; [intros w x; reflexivity|intros pressed].
  destruct pressed as [n|]; [destruct (n =? turn)|];
    first [apply ignores_raise|apply ignores_ret].
Qed.

(** ** get_game_state and construct_prompt *)

(** X9: [get_game_state] decodes the text of the first content item of the
    state resource and raises [JSONDecodeError] when [json.loads] refuses
    it.  A state resource without contents is such a case: its text is
    the empty string of [read_resource], which is no JSON. *)
Theorem get_game_state_decodes_or_raises `{Externals} w line rest members result :
  answers w line rest (JObj members) ->
  dict_get "error" members = None ->
  dict_get "result" members = Some (JObj result) ->
  (forall item more text,
     dict_get "contents" result = Some (JArr (JObj item :: more)) ->
     dict_get "text" item = Some (JStr text) ->
     get_game_state w =
       (match json_loads text with
        | Some state => Return state
        | None => Raise JSONDecodeError
        end,
        exchanged "resources/read" (Some (JObj [("uri", JStr "game://state")])) rest w)) /\
  (json_loads "" = None ->
   dict_get "contents" result = None \/ dict_get "contents" result = Some (JArr []) ->
   get_game_state w =
     (Raise JSONDecodeError,
      exchanged "resources/read" (Some (JObj [("uri", JStr "game://state")])) rest w)).
Proof.
  intros Ha He Hr. unfold get_game_state. split.
  - intros item more text Hc Ht. unfold bind.
    rewrite (read_resource_answered _ _ _ _ _ Ha He).
    unfold result_of. rewrite Hr. simpl. rewrite Hc. simpl. rewrite Ht.
    unfold lift, loads. destruct (json_loads text); reflexivity.
  - intros Hempty Hc. unfold bind.
    rewrite (read_resource_answered _ _ _ _ _ Ha He).
    unfold result_of. rewrite Hr. simpl.
    destruct Hc as [->| ->]; simpl; unfold lift, loads; now rewrite Hempty.
Qed.

Lemma get_game_state_decodes_or_raises_witness :
  fst (@get_game_state (with_llm talking_llm) (fresh [no_contents_line] [])) =
    Raise JSONDecodeError.
Proof.
  rewrite (proj2 (@get_game_state_decodes_or_raises (with_llm talking_llm)
             (fresh [no_contents_line] []) no_contents_line []
             [("jsonrpc", JStr "2.0"); ("id", JInt 1); ("result", JObj [])] []
             ltac:(repeat split; vm_compute; reflexivity) eq_refl eq_refl)
           eq_refl (or_introl eq_refl)).
  reflexivity.
Defined.






(** X11: A game state that is no dict makes [construct_prompt] raise
    [AttributeError]; so does a player that is no dict and stands before
    the first player with the right id.  Players that cannot be iterated
    (a number, a boolean, [None]) make it raise [TypeError]. *)
Theorem construct_prompt_malformed_state (game_state : json) :
  (is_dict game_state = false -> construct_prompt game_state = Raise AttributeError) /\
  (forall members players,
     game_state = JObj members ->
     field_or "players" (JArr []) members = players ->
     match players with
     | JNull | JBool _ | JInt _ | JFloat _ => construct_prompt game_state = Raise TypeError
     | JArr (p :: _) => is_dict p = false -> construct_prompt game_state = Raise AttributeError
     | _ => True
     end).
Proof.
  split.
  - intros Hd. destruct game_state; try discriminate Hd; reflexivity.
  - intros members players -> Hp. unfold field_or in Hp.
    unfold construct_prompt. simpl. rewrite Hp.
    destruct players as [| | | | |[|p rest]|]; try reflexivity; try exact I.
    intros Hd. destruct p; try discriminate Hd; reflexivity.
Qed.

(** ** initialize *)










(** ** main: the handshake and the operator's stop *)

Lemma connect_timeout w :
  Forall no_sentinel (stderr_queue w) ->
  connect w =
    (Raise handshake_timeout,
     set_stderr_queue [] (noted waiting_text (set_request_id 0 w))).
Proof.
  intros Hq.
  unfold connect, wait_for_connection, bind, modify, gets, say, emit, lift, ret. simpl.
  rewrite (wait_for_queue_timeout _ Hq). reflexivity.
Qed.

(** X13: When no line with the sentinel arrives before the deadline, [main]
    ends with the timeout as fatal error after its cleanup, and no
    request was written to the server. *)
Theorem handshake_timeout_is_fatal `{Externals} (fuel : nat) (w : world) :
  Forall no_sentinel (stderr_queue w) ->
  main fuel w =
    (Fatal handshake_timeout,
     cleanup (report_fatal handshake_timeout
                (set_stderr_queue [] (noted waiting_text (set_request_id 0 (banner w)))))) /\
  stdin_written (snd (main fuel w)) = stdin_written w /\
  proc (snd (main fuel w)) <> Alive.
Proof.
  intros Hq.
  assert (Hm : main fuel w =
               (Fatal handshake_timeout,
                cleanup (report_fatal handshake_timeout
                  (set_stderr_queue [] (noted waiting_text (set_request_id 0 (banner w))))))).
  { apply main_fatal; [|reflexivity].
    unfold session. apply bind_Raise. now apply connect_timeout. }
  rewrite Hm. split; [reflexivity|split].
  - unfold cleanup. simpl. destruct (exits_on_terminate w); reflexivity.
  - apply cleanup_ends_process.
Qed.

Lemma handshake_timeout_is_fatal_witness :
  @main (with_llm talking_llm) 3 (fresh [tools_line] ["MCP server listening"]) =
    (Fatal handshake_timeout,
     cleanup (report_fatal handshake_timeout
                (set_stderr_queue []
                   (noted waiting_text
                      (set_request_id 0
                         (banner (fresh [tools_line] ["MCP server listening"]))))))) /\
  stdin_written (snd (@main (with_llm talking_llm) 3
                        (fresh [tools_line] ["MCP server listening"]))) =
    stdin_written (fresh [tools_line] ["MCP server listening"]) /\
  proc (snd (@main (with_llm talking_llm) 3
               (fresh [tools_line] ["MCP server listening"]))) <> Alive.
Proof.
  apply (@handshake_timeout_is_fatal (with_llm talking_llm) 3
           (fresh [tools_line] ["MCP server listening"])).
  repeat constructor.
Defined.




(** ** The reader thread over a whole stream *)

Lemma read_stderr_valid lines : forall r,
  Forall (fun line => utf8_valid line = true) lines ->
  queued (_read_stderr lines r) = queued r ++ map strip lines /\
  printed (_read_stderr lines r) =
    printed r ++ map server_says (filter (fun d => negb (is_noise d)) (map strip lines)).
Proof.
  induction lines as [|line rest IH]; intros r Hv; simpl.
  - now rewrite !app_nil_r.
  - inversion Hv as [|? ? Hline Hrest]; subst.
    unfold decode_utf8. rewrite Hline.
    destruct (IH (read_stderr_line (strip line) r) Hrest) as [Hq Hp].
    rewrite Hq, Hp. unfold read_stderr_line.
    destruct (is_noise (strip line)); simpl; rewrite <- ?app_assoc; split; reflexivity.
Qed.

Lemma read_stderr_stops good : forall r bad rest,
  Forall (fun line => utf8_valid line = true) good ->
  utf8_valid bad = false ->
  _read_stderr (good ++ bad :: rest) r = _read_stderr good r.
Proof.
  induction good as [|line good IH]; intros r bad rest Hv Hbad; simpl.
  - unfold decode_utf8. now rewrite Hbad.
  - inversion Hv as [|? ? Hline Hgood]; subst.
    unfold decode_utf8. rewrite Hline. now apply IH.
Qed.

(** X15: Over a stream of lines [_read_stderr] queues every line, stripped,
    in the order of arrival, and prints exactly those that are no noise,
    each with the server's label.  A line that is not UTF-8 ends the
    reader: neither it nor any later line is queued or printed. *)
Theorem read_stderr_queues_all_prints_some (lines : list string) (r : stderr_reader) :
  (Forall (fun line => utf8_valid line = true) lines ->
   queued (_read_stderr lines r) = queued r ++ map strip lines /\
   printed (_read_stderr lines r) =
     printed r ++ map server_says (filter (fun d => negb (is_noise d)) (map strip lines))) /\
  (forall good bad rest,
     lines = good ++ bad :: rest ->
     Forall (fun line => utf8_valid line = true) good ->
     utf8_valid bad = false ->
     _read_stderr lines r = _read_stderr good r).
Proof.
  split; [apply read_stderr_valid|].
  intros good bad rest -> Hv Hbad. now apply read_stderr_stops.
Qed.

(** ** The requests of one turn *)

Lemma read_resource_world `{Externals} uri w :
  snd (read_resource uri w) =
  snd (send_request "resources/read" (Some (JObj [("uri", JStr uri)])) w).
Proof.
  unfold read_resource, bind.
  destruct (send_request _ _ w) as [[result|e] w0]; [|reflexivity].
  unfold lift, ret.
  destruct (py_get result "contents" (JArr [])) as [contents|e]; [|reflexivity].
  destruct (truthy contents); [|reflexivity].
  destruct (py_first contents) as [first|e]; reflexivity.
Qed.

Lemma get_game_state_world `{Externals} w :
  snd (get_game_state w) = snd (read_resource "game://state" w).
Proof.
  unfold get_game_state, bind.
  destruct (read_resource "game://state" w) as [[state_json|e] w0]; reflexivity.
Qed.

Lemma get_game_state_writes `{Externals} w :
  stdin_broken w = false ->
  stdin_written (snd (get_game_state w)) =
    stdin_written w ++ [state_request (request_id w + 1)].
Proof.
  intros Hb. rewrite get_game_state_world, read_resource_world, send_request_cases, Hb.
  destruct (stdout_lines w) as [|line rest]; [reflexivity|].
  destruct (String.eqb line ""); reflexivity.
Qed.

Lemma get_game_state_broken `{Externals} w :
  stdin_broken w = true ->
  stdin_written (snd (get_game_state w)) = stdin_written w /\
  exists e, fst (get_game_state w) = Raise e.
Proof.
  intros Hb. unfold get_game_state, read_resource, bind.
  rewrite send_request_cases, Hb. simpl. split; [reflexivity|now eexists].
Qed.

Lemma bind_establishes (P : world -> Prop) {A B} (c : M A) (k : A -> M B) w :
  P (snd (c w)) -> (forall a, preserves P (k a)) -> P (snd (bind c k w)).
Proof.
  intros Hc Hk. unfold bind.
  destruct (c w) as [[a|e] w1]; simpl in *; [now apply Hk|exact Hc].
Qed.

Lemma requests_is_tool_call `{Externals} call request :
  requests call request -> is_tool_call request.
Proof.
  intros (id & arguments & _ & ->). exists (function_name call). reflexivity.
Qed.

Lemma tool_calls_since_execute `{Externals} sent_before call :
  preserves (tool_calls_since sent_before) (execute_tool_call call).
Proof.
  intros w (calls & Hw & Hc).
  destruct (execute_tool_call_writes call w) as [[Hs _]|(request & Hr & Hs)].
  - exists calls. split; [congruence|exact Hc].
  - exists (calls ++ [request]). split.
    + rewrite Hs, Hw, app_assoc. reflexivity.
    + apply Forall_app. split; [exact Hc|].
      constructor; [exact (requests_is_tool_call _ _ Hr)|constructor].
Qed.

Lemma tool_calls_since_say sent_before text :
  preserves (tool_calls_since sent_before) (say text).
Proof. apply preserves_modify. intros w Hw. exact Hw. Qed.

Lemma turn_body_requests `{Externals} w :
  stdin_broken w = false ->
  tool_calls_since (stdin_written w ++ [state_request (request_id w + 1)])
    (snd (turn_body w)).
Proof.
  intros Hb. unfold turn_body. apply bind_establishes.
  - exists []. split; [|constructor].
    rewrite (get_game_state_writes w Hb), app_nil_r. reflexivity.
  - intros game_state. unfold convert_mcp_tools_to_openai_format.
    apply preserves_bind; [apply preserves_lift|intros prompt].
    apply preserves_bind; [apply tool_calls_since_say|intros _].
    apply preserves_bind.
    { apply preserves_bind; [apply preserves_gets|intros fetched].
      apply preserves_bind; [apply preserves_lift|intros items]. apply preserves_lift. }
    intros openai_tools.
    apply preserves_bind; [apply preserves_gets|intros turn].
    apply preserves_bind; [apply preserves_lift|intros response].
    destruct (choices response) as [|message others]; [apply preserves_raise|].
    destruct (tool_calls message) as [[|call calls]|]; try apply tool_calls_since_say.
    apply preserves_for_each. intros c. apply tool_calls_since_execute.
Qed.

(** X16: A turn sends one request for the game state, with the next id, and
    after it nothing but tool calls; with a broken stdin it sends
    nothing.  (Which tools, and in which order, is the LLM's list.) *)
Theorem turn_reads_state_then_calls_tools `{Externals} (w : world) :
  (stdin_broken w = false ->
   exists calls,
     stdin_written (snd (execute_turn w)) =
       stdin_written w ++ state_request (request_id w + 1) :: calls /\
     Forall is_tool_call calls) /\
  (stdin_broken w = true ->
   stdin_written (snd (execute_turn w)) = stdin_written w).
Proof.
  split; intros Hb; rewrite execute_turn_cases.
  - destruct (turn_body_requests (start_turn w) Hb) as (calls & Hw & Hc).
    exists calls. split; [|exact Hc].
    change (stdin_written (start_turn w)) with (stdin_written w) in Hw.
    change (request_id (start_turn w)) with (request_id w) in Hw.
    rewrite <- app_assoc in Hw. simpl in Hw.
    destruct (turn_body (start_turn w)) as [[[]|e] w']; simpl in Hw; [exact Hw|].
    destruct (is_Exception e); exact Hw.
  - destruct (get_game_state_broken (start_turn w) Hb) as [Hs [e He]].
    unfold turn_body, bind.
    destruct (get_game_state (start_turn w)) as [[gs|e'] w']; simpl in *; [discriminate|].
    destruct (is_Exception e'); exact Hs.
Qed.

(** ** verify_pipeline.py: the reader of the server's output *)

Lemma plain_log_not_empty `{Externals} line : plain_log line -> String.eqb line "" = false.
Proof.
  intros (_ & Hs & _). destruct line; [discriminate Hs|reflexivity].
Qed.

Lemma read_pipe_logs `{Externals} lines : forall printed,
  Forall (fun line => plain_log line \/ blank_line line) lines ->
  read_pipe None lines printed =
    (Return tt, printed ++ map log_line (filter not_blank lines)).
Proof.
  induction lines as [|line rest IH]; intros printed Hl.
  - simpl. now rewrite app_nil_r.
  - inversion Hl as [|? ? Hline Hrest]; subst. cbn [read_pipe filter].
    destruct Hline as [Hp|(Hu & Hne & Hb)].
    + rewrite (plain_log_not_empty _ Hp). destruct Hp as (Hu & Hs & Hj).
      unfold decode_utf8. rewrite Hu, Hs. unfold not_blank. rewrite Hs. simpl.
      unfold report_message, loads. rewrite Hj.
      rewrite (IH _ Hrest), <- app_assoc. reflexivity.
    + rewrite Hne. unfold decode_utf8. rewrite Hu, Hb. unfold not_blank. rewrite Hb.
      simpl. now apply IH.
Qed.

(** X17: [stream_reader] prints its header, then one [LOG] line for every
    line of the server's output that is no JSON, stripped, in the order
    of arrival; lines of white space are skipped; at the end of the
    output it returns. *)
Theorem stream_reader_logs_plain_lines `{Externals} (lines : list string) :
  Forall (fun line => plain_log line \/ blank_line line) lines ->
  stream_reader None lines =
    (Return tt, pipeline_header ++ map log_line (filter not_blank lines)).
Proof. intros Hl. unfold stream_reader. now apply read_pipe_logs. Qed.

Lemma stream_reader_logs_plain_lines_witness :
  @stream_reader (with_llm talking_llm) None
     [String.append "Server ready" newline; newline; String.append "  listening  " newline] =
    (Return tt,
     pipeline_header ++
     map log_line
       (filter not_blank
          [String.append "Server ready" newline; newline;
           String.append "  listening  " newline])).
Proof.
  apply (@stream_reader_logs_plain_lines (with_llm talking_llm)).
  constructor; [left; repeat split; vm_compute; reflexivity|].
  constructor; [right; repeat split; vm_compute; reflexivity|].
  constructor; [left; repeat split; vm_compute; reflexivity|constructor].
Defined.

Lemma report_message_non_object `{Externals} line_str v :
  json_loads line_str = Some v -> is_dict v = false ->
  report_message line_str = Raise AttributeError.
Proof.
  intros Hj Hd. unfold report_message, loads. rewrite Hj.
  destruct v; try discriminate Hd; reflexivity.
Qed.

Lemma read_pipe_app `{Externals} before : forall printed rest,
  Forall (fun line => plain_log line \/ blank_line line) before ->
  read_pipe None (before ++ rest) printed =
    read_pipe None rest (printed ++ map log_line (filter not_blank before)).
Proof.
  induction before as [|line before IH]; intros printed rest Hl.
  - simpl. now rewrite app_nil_r.
  - inversion Hl as [|? ? Hline Hbefore]; subst.
    change ((line :: before) ++ rest) with (line :: before ++ rest).
    cbn [read_pipe filter].
    destruct Hline as [Hp|(Hu & Hne & Hb)].
    + rewrite (plain_log_not_empty _ Hp). destruct Hp as (Hu & Hs & Hj).
      unfold decode_utf8. rewrite Hu, Hs. unfold not_blank. rewrite Hs. simpl.
      unfold report_message, loads. rewrite Hj.
      rewrite (IH _ _ Hbefore), <- app_assoc. reflexivity.
    + rewrite Hne. unfold decode_utf8. rewrite Hu, Hb. unfold not_blank. rewrite Hb.
      simpl. now apply IH.
Qed.

(** X18: A line of the server's output that is JSON but no object (a number,
    a string, a list, [null]) ends [stream_reader] with
    [AttributeError], which its [except json.JSONDecodeError] does not
    catch: the line is not printed and no later line is read.  The same
    happens for a [GameUpdate] whose payload is no object. *)
Theorem stream_reader_dies_on_non_object `{Externals}
    (before : list string) (line : string) (rest : list string) (v : json) :
  Forall (fun l => plain_log l \/ blank_line l) before ->
  utf8_valid line = true ->
  String.eqb (strip line) "" = false ->
  json_loads (strip line) = Some v ->
  is_dict v = false \/
  (exists members payload,
     v = JObj members /\
     dict_get "type" members = Some (JStr "GameUpdate") /\
     dict_get "payload" members = Some payload /\
     is_dict payload = false) ->
  stream_reader None (before ++ line :: rest) =
    (Raise AttributeError, pipeline_header ++ map log_line (filter not_blank before)).
Proof.
  intros Hb Hu Hs Hj Hv. unfold stream_reader.
  rewrite (read_pipe_app _ _ _ Hb). cbn [read_pipe].
  assert (Hne : String.eqb line "" = false).
  { destruct line; [discriminate Hs|reflexivity]. }
  rewrite Hne. unfold decode_utf8. rewrite Hu, Hs.
  destruct Hv as [Hd|(members & payload & -> & Ht & Hp & Hd)].
  - now rewrite (report_message_non_object _ _ Hj Hd).
  - unfold report_message, loads. rewrite Hj. unfold py_get. rewrite Ht.
    cbn [and_then]. change (py_eq (JStr "GameUpdate") (JStr "GameUpdate")) with true.
    cbn iota. rewrite Hp. cbn [and_then].
    destruct payload; try discriminate Hd; reflexivity.
Qed.

Lemma stream_reader_dies_on_non_object_witness :
  @stream_reader (with_llm talking_llm) None
     ([String.append "Server ready" newline] ++
      String.append "42" newline :: [String.append "never read" newline]) =
    (Raise AttributeError,
     pipeline_header ++
     map log_line (filter not_blank [String.append "Server ready" newline])).
Proof.
  apply (@stream_reader_dies_on_non_object (with_llm talking_llm)
           [String.append "Server ready" newline] (String.append "42" newline)
           [String.append "never read" newline] (JInt 42)).
  - constructor; [|constructor]. left. repeat split; vm_compute; reflexivity.
  - vm_compute. reflexivity.
  - vm_compute. reflexivity.
  - vm_compute. reflexivity.
  - left. reflexivity.
Defined.

(** ** strip() and the noise test *)

Lemma append_assoc_string (a b c : string) : ((a ++ b) ++ c = a ++ (b ++ c))%string.
Proof. induction a as [|x a IH]; simpl; [reflexivity|now rewrite IH]. Qed.

Lemma append_empty_r (a : string) : (a ++ "")%string = a.
Proof. induction a as [|x a IH]; simpl; [reflexivity|now rewrite IH]. Qed.

Lemma rev_string_acc s : forall acc,
  rev_string acc s = (rev_string "" s ++ acc)%string.
Proof.
  induction s as [|c s IH]; intros acc; simpl; [reflexivity|].
  rewrite (IH (String c acc)), (IH (String c "")), append_assoc_string. reflexivity.
Qed.

Lemma rev_string_app a b :
  rev_string "" (a ++ b)%string = (rev_string "" b ++ rev_string "" a)%string.
Proof.
  induction a as [|c a IH]; simpl.
  - now rewrite append_empty_r.
  - rewrite (rev_string_acc (a ++ b)), (rev_string_acc a), IH, append_assoc_string.
    reflexivity.
Qed.

Lemma rev_string_involutive s : rev_string "" (rev_string "" s) = s.
Proof.
  induction s as [|c s IH]; simpl; [reflexivity|].
  rewrite (rev_string_acc s), rev_string_app, IH. reflexivity.
Qed.

Lemma contains_rev sub t :
  contains (rev_string "" sub) (rev_string "" t) = contains sub t.
Proof.
  apply eq_true_iff_eq. rewrite !contains_spec. split.
  - intros (pre & post & Ht).
    exists (rev_string "" post), (rev_string "" pre).
    rewrite <- (rev_string_involutive t), Ht, !rev_string_app, rev_string_involutive.
    now rewrite append_assoc_string.
  - intros (pre & post & ->).
    exists (rev_string "" post), (rev_string "" pre).
    rewrite !rev_string_app. now rewrite append_assoc_string.
Qed.

Lemma edgeless_app a b : edgeless (a ++ b)%string = edgeless a && edgeless b.
Proof.
  induction a as [|c a IH]; simpl; [reflexivity|]. now rewrite IH, andb_assoc.
Qed.

Lemma contains_skip_edgeless a sub pre t :
  edge a = true -> edgeless pre = true ->
  contains (String a sub) (pre ++ t)%string = contains (String a sub) t.
Proof.
  intros Ha. induction pre as [|c pre IH]; intros Hp; [reflexivity|].
  simpl in Hp. apply andb_true_iff in Hp as [Hc Hp].
  change (String c pre ++ t)%string with (String c (pre ++ t)%string).
  cbn [contains]. rewrite (IH Hp).
  replace (String.prefix (String a sub) (String c (pre ++ t)%string)) with false;
    [reflexivity|].
  simpl. destruct (ascii_dec a c) as [->|]; [|reflexivity].
  rewrite Ha in Hc. discriminate Hc.
Qed.

Lemma byte_in_disjoint lo hi lo' hi' c :
  (hi < lo' \/ hi' < lo)%N -> byte_in lo hi c = true -> byte_in lo' hi' c = false.
Proof.
  unfold byte_in. intros Hd Hb.
  apply andb_true_iff in Hb as [H1 H2].
  apply N.leb_le in H1. apply N.leb_le in H2.
  apply andb_false_iff.
  destruct Hd; [left; apply N.leb_gt; lia|right; apply N.leb_gt; lia].
Qed.

Lemma space1_edgeless c : space1 c = true -> edge c = false.
Proof.
  unfold space1, edge. intros H. apply orb_true_iff in H as [H|H];
    (eapply byte_in_disjoint; [|exact H]); left; reflexivity.
Qed.

Lemma high_byte_edgeless n c : (128 <= n)%N -> byte_in n n c = true -> edge c = false.
Proof.
  intros Hn H. unfold edge. eapply byte_in_disjoint; [|exact H]. right. lia.
Qed.

Lemma space2_edgeless c0 c1 :
  space2 c0 c1 = true -> edge c0 = false /\ edge c1 = false.
Proof.
  unfold space2. intros H. apply andb_true_iff in H as [H0 H1]. split.
  - eapply high_byte_edgeless; [|exact H0]. lia.
  - apply orb_true_iff in H1 as [H1|H1];
      (eapply high_byte_edgeless; [|exact H1]); lia.
Qed.

(** Closes [byte_in 33 127 c = false] from the ranges known for [c]. *)
Ltac bytes_apart :=
  unfold byte_in in *;
  repeat match goal with
         | H : (_ && _) = true |- _ => apply andb_true_iff in H as [? ?]
         end;
  repeat match goal with
         | H : (_ <=? _)%N = true |- _ => apply N.leb_le in H
         end;
  apply andb_false_iff;
  first [left; apply N.leb_gt; lia | right; apply N.leb_gt; lia].

Lemma space3_edgeless c0 c1 c2 :
  space3 c0 c1 c2 = true -> edge c0 = false /\ edge c1 = false /\ edge c2 = false.
Proof.
  unfold space3, edge. intros H.
  repeat (apply orb_true_iff in H as [H|H]);
    repeat (apply andb_true_iff in H as [H ?]);
    repeat match goal with
           | Hx : (_ || _) = true |- _ => apply orb_true_iff in Hx as [Hx|Hx]
           end;
    repeat split; bytes_apart.
Qed.

Lemma drop_space_split backwards : forall n s,
  (String.length s <= n)%nat ->
  exists pre, s = (pre ++ drop_space backwards s)%string /\ edgeless pre = true.
Proof.
  induction n as [|n IH]; intros s Hs.
  - destruct s; [|simpl in Hs; lia]. now exists ""%string.
  - destruct s as [|c0 s1]; [now exists ""%string|]. simpl in Hs. cbn [drop_space].
    destruct (space1 c0) eqn:H1.
    { destruct (IH s1 ltac:(lia)) as (pre & Hpre & He).
      exists (String c0 pre). split; [simpl; now rewrite <- Hpre|].
      simpl. now rewrite (space1_edgeless _ H1), He. }
    destruct s1 as [|c1 s2]; [now exists ""%string|]. simpl in Hs.
    destruct (if backwards then space2 c1 c0 else space2 c0 c1) eqn:H2.
    { destruct (IH s2 ltac:(lia)) as (pre & Hpre & He).
      exists (String c0 (String c1 pre)). split; [simpl; now rewrite <- Hpre|].
      assert (edge c0 = false /\ edge c1 = false) as [E0 E1].
      { destruct backwards; apply space2_edgeless in H2; tauto. }
      simpl. now rewrite E0, E1, He. }
    destruct s2 as [|c2 s3]; [now exists ""%string|]. simpl in Hs.
    destruct (if backwards then space3 c2 c1 c0 else space3 c0 c1 c2) eqn:H3.
    { destruct (IH s3 ltac:(lia)) as (pre & Hpre & He).
      exists (String c0 (String c1 (String c2 pre))).
      split; [simpl; now rewrite <- Hpre|].
      assert (edge c0 = false /\ edge c1 = false /\ edge c2 = false) as (E0 & E1 & E2).
      { destruct backwards; apply space3_edgeless in H3; tauto. }
      simpl. now rewrite E0, E1, E2, He. }
    now exists ""%string.
Qed.

Lemma contains_strip sub s :
  edge_ends sub = true -> contains sub (strip s) = contains sub s.
Proof.
  unfold edge_ends. intros He.
  destruct sub as [|a sub']; [discriminate He|].
  destruct (rev_string "" (String a sub')) as [|z bus] eqn:Hrev; [discriminate He|].
  apply andb_true_iff in He as [Ha Hz].
  destruct (drop_space_split false _ s (le_n _)) as (pre1 & Hs1 & E1).
  set (u := drop_space false s) in *.
  destruct (drop_space_split true _ (rev_string "" u) (le_n _)) as (pre2 & Hs2 & E2).
  unfold strip. fold u. set (d := drop_space true (rev_string "" u)) in *.
  rewrite <- (contains_rev (String a sub') (rev_string "" d)).
  rewrite rev_string_involutive, Hrev.
  rewrite <- (contains_skip_edgeless z bus pre2 d Hz E2), <- Hs2, <- Hrev.
  rewrite contains_rev.
  rewrite <- (contains_skip_edgeless a sub' pre1 u Ha E1), <- Hs1. reflexivity.
Qed.

(** X19: The [strip()] before the noise test changes nothing: a line is noise
    after stripping exactly when the line as decoded is noise, since no
    configured substring begins or ends with white space. *)
Theorem strip_keeps_noise (text : string) :
  is_noise (strip text) = is_noise text /\
  forall noise, In noise noise_substrings ->
    contains noise (strip text) = contains noise text.
Proof.
  assert (Hn : forall noise, In noise noise_substrings ->
                 contains noise (strip text) = contains noise text).
  { intros noise Hin. apply contains_strip.
    unfold noise_substrings in Hin. simpl in Hin.
    repeat (destruct Hin as [<-|Hin]; [vm_compute; reflexivity|]). destruct Hin. }
  split; [|exact Hn].
  unfold is_noise, noise_substrings. cbn [existsb].
  rewrite !Hn by (unfold noise_substrings; simpl; tauto). reflexivity.
Qed.

(** ** initialize when both fetches are answered *)




